(** * The quality-control core of the content pipeline

    A shallow embedding of [src/fact_checker.py] (class [FactChecker]),
    [src/web_searcher.py] (class [WebSearcher]) and
    [src/content_improver.py] (class [ContentImprover]), and the properties
    of the scoring engine that the specification states about them.

    Conventions of the embedding.
    - A Python value is a [PyVal]; a [dict] with string keys is a
      [gmap string PyVal]; a Python [float] is a binary64 [float] of the
      kernel and an [int] is a [Z], so that every product, sum, quotient
      and comparison below is the one the interpreter computes.
    - A computation that may raise is a value of [M A = exn + A]; the
      exceptions are those that [except Exception] catches, and a
      [try ... except Exception] is [try_except].
    - What the code obtains from outside (the clock, the language-model
      client, the HTTP layer) is a field of [World]; what it obtains from
      the Python library ([str.lower], [json.loads], [re.search], ...) is a
      field of [PyRuntime].  The properties hold for every world and every
      runtime.
    - The calls to [logger] are left out; the fixed text of a prompt is
      left out, its interpolated values are kept.
    - A timestamp is a naive [datetime], like [datetime.now()]. *)

From Stdlib Require Import ZArith String Ascii Bool Lia.
From Stdlib Require Import PrimFloat SpecFloat FloatOps FloatAxioms.
From stdpp Require Import base option list gmap strings pretty.

Set Warnings "-inexact-float,-register-all".
Local Open Scope string_scope.
Local Open Scope Z_scope.

(** ** Exceptions and the error monad *)

Inductive exn_class : Set :=
| AttributeError | TypeError | KeyError | ValueError | OverflowError
| JSONDecodeError | OtherException.

(** [exn_msg e] is [str(e)]. *)
Record exn : Set := Exn { exn_cls : exn_class; exn_msg : string }.

Definition M (A : Type) : Type := (exn + A)%type.

Definition ret {A} (a : A) : M A := inr a.
Definition raise {A} (e : exn) : M A := inl e.
Definition bind {A B} (m : M A) (k : A -> M B) : M B :=
  match m with
  | inl e => inl e
  | inr a => k a
  end.

Notation "x <- m ;; k" := (bind m (fun x => k))
  (at level 100, m at next level, right associativity).

(** [try: body except Exception as e: handler e]. *)
Definition try_except {A} (body : M A) (handler : exn -> A) : A :=
  match body with
  | inl e => handler e
  | inr a => a
  end.

Definition raises {A} (m : M A) : Prop := exists e, m = raise e.

(** ** Python values *)

Inductive PyVal : Type :=
| PNone
| PBool (b : bool)
| PInt (z : Z)
| PFloat (f : float)
| PStr (s : string)
| PList (l : list PyVal)
| PDict (d : gmap string PyVal)
| PObj (cls : string).          (* an instance of a client class *)

(** A dict display [{k1: v1, ...}]. *)
Definition dict (kvs : list (string * PyVal)) : PyVal := PDict (list_to_map kvs).

Definition type_name (v : PyVal) : string :=
  match v with
  | PNone => "NoneType" | PBool _ => "bool" | PInt _ => "int"
  | PFloat _ => "float" | PStr _ => "str" | PList _ => "list"
  | PDict _ => "dict" | PObj c => c
  end.

(** Truth value testing: [bool(v)]. *)
Definition truthy (v : PyVal) : bool :=
  match v with
  | PNone => false
  | PBool b => b
  | PInt z => negb (z =? 0)
  | PFloat f => negb (PrimFloat.eqb f 0%float)
  | PStr s => negb (String.eqb s "")
  | PList l => match l with [] => false | _ => true end
  | PDict d => negb (bool_decide (d = ∅))
  | PObj _ => true
  end.

(** [a or b]. *)
Definition py_or (a b : PyVal) : PyVal := if truthy a then a else b.

Definition no_attribute {A} (v : PyVal) (name : string) : M A :=
  raise (Exn AttributeError
           ("'" +:+ type_name v +:+ "' object has no attribute '" +:+ name +:+ "'")).

(** [v.get(k, dflt)]: only a dict has the method. *)
Definition py_get (v : PyVal) (k : string) (dflt : PyVal) : M PyVal :=
  match v with
  | PDict d => ret (default dflt (d !! k))
  | _ => no_attribute v "get"
  end.

(** [v[k]] for a string key. *)
Definition py_getitem (v : PyVal) (k : string) : M PyVal :=
  match v with
  | PDict d =>
      match d !! k with
      | Some x => ret x
      | None => raise (Exn KeyError ("'" +:+ k +:+ "'"))
      end
  | _ => raise (Exn TypeError ("'" +:+ type_name v +:+ "' object is not subscriptable by str"))
  end.

(** [v[k] = x] for a string key. *)
Definition py_setitem (v : PyVal) (k : string) (x : PyVal) : M PyVal :=
  match v with
  | PDict d => ret (PDict (<[k := x]> d))
  | _ => raise (Exn TypeError ("'" +:+ type_name v +:+ "' object does not support item assignment"))
  end.

(** ** Numbers: [int] and [float] *)

Inductive Num : Set :=
| NInt (z : Z)
| NFloat (f : float).

Definition of_num (n : Num) : PyVal :=
  match n with
  | NInt z => PInt z
  | NFloat f => PFloat f
  end.

(** The numeric value of a Python object, [bool] being a subclass of [int]. *)
Definition as_num (v : PyVal) : option Num :=
  match v with
  | PBool b => Some (NInt (if b then 1 else 0))
  | PInt z => Some (NInt z)
  | PFloat f => Some (NFloat f)
  | _ => None
  end.

(** [float(z)]: the nearest binary64, ties to even. *)
Definition Zfloat (z : Z) : float := SF2Prim (binary_normalize prec emax z 0 false).

(** The conversion of an [int] operand in mixed arithmetic. *)
Definition float_of_int (z : Z) : M float :=
  if is_infinity (Zfloat z)
  then raise (Exn OverflowError "int too large to convert to float")
  else ret (Zfloat z).

(** The nearest binary64 to the rational [a / b]: the quotient is taken with
    more than 64 significant bits and a sticky bit, then rounded once. *)
Definition round_quotient (a : Z) (b : positive) : float :=
  let k := 64 + Z.log2_up (Zpos b) in
  let n := Z.abs a * 2 ^ k in
  let sticky := if n mod Zpos b =? 0 then 0 else 1 in
  let m := 2 * (n / Zpos b) + sticky in
  SF2Prim (binary_normalize prec emax (if a <? 0 then - m else m) (- (k + 1)) false).

(** [a / b] on two ints (true division, correctly rounded). *)
Definition int_truediv (a : Z) (b : positive) : M float :=
  if is_infinity (round_quotient a b)
  then raise (Exn OverflowError "integer division result too large for a float")
  else ret (round_quotient a b).

Definition to_float (n : Num) : M float :=
  match n with
  | NInt z => float_of_int z
  | NFloat f => ret f
  end.

Definition num_add (a b : Num) : M Num :=
  match a, b with
  | NInt x, NInt y => ret (NInt (x + y))
  | NInt x, NFloat g => f <- float_of_int x ;; ret (NFloat (f + g)%float)
  | NFloat f, NInt y => g <- float_of_int y ;; ret (NFloat (f + g)%float)
  | NFloat f, NFloat g => ret (NFloat (f + g)%float)
  end.

(** [sum(l)]: the additions start from the int [0], left to right. *)
Definition py_sum (l : list Num) : M Num :=
  foldl (fun acc x => a <- acc ;; num_add a x) (ret (NInt 0)) l.

(** [a / n] for a positive int [n] (a length). *)
Definition num_truediv (a : Num) (n : positive) : M float :=
  match a with
  | NInt x => int_truediv x n
  | NFloat f => ret (f / Zfloat (Zpos n))%float
  end.

(** Comparisons of a number with an int literal [k]; the literals of the
    code are small, so [float(k)] is [k] exactly. *)
Definition num_ltb (n : Num) (k : Z) : bool :=
  match n with
  | NInt z => z <? k
  | NFloat f => (f <? Zfloat k)%float
  end.

Definition num_gtb (n : Num) (k : Z) : bool :=
  match n with
  | NInt z => k <? z
  | NFloat f => (Zfloat k <? f)%float
  end.

Definition unsupported {A} (op : string) (v : PyVal) : M A :=
  raise (Exn TypeError ("unsupported operand type(s) for " +:+ op +:+ ": '" +:+ type_name v +:+ "'")).

(** [v * w] for a float [w]. *)
Definition py_mul_float (v : PyVal) (w : float) : M float :=
  match as_num v with
  | Some n => x <- to_float n ;; ret (x * w)%float
  | None => unsupported "*" v
  end.

(** [v < k] for an int literal [k]. *)
Definition py_lt_int (v : PyVal) (k : Z) : M bool :=
  match as_num v with
  | Some n => ret (num_ltb n k)
  | None => unsupported "<" v
  end.

(** ** Strings *)

(** [needle in hay]. *)
Fixpoint str_in (needle hay : string) : bool :=
  String.prefix needle hay ||
  match hay with
  | EmptyString => false
  | String _ rest => str_in needle rest
  end.

(** The decimal digits of a natural number: [str(n)]. *)
Definition str_of_nat (n : nat) : string := pretty n.

(** The functions of the Python library that the code calls on text.  A
    [str] is embedded as the string of its UTF-8 bytes. *)
Class PyRuntime : Type := {
  str_lower : string -> string;               (* s.lower() *)
  str_strip : string -> string;               (* s.strip() *)
  str_slice_to : nat -> string -> string;     (* s[:n] *)
  format_1f : float -> string;                (* format(x, ".1f") *)
  json_loads : string -> M PyVal;             (* json.loads(s) *)
  re_search : string -> string -> option string;
    (* re.search(p, s, re.DOTALL | re.IGNORECASE): group 1 of the match *)
  set_to_list : list string -> list string;   (* list(set(l)) *)
  py_str : PyVal -> string;                   (* str(v) *)
}.

Section Model.
Context {RT : PyRuntime}.

(** [v[:n]]. *)
Definition py_slice_to (n : nat) (v : PyVal) : M PyVal :=
  match v with
  | PStr s => ret (PStr (str_slice_to n s))
  | PList l => ret (PList (take n l))
  | _ => raise (Exn TypeError ("'" +:+ type_name v +:+ "' object is not subscriptable"))
  end.

(** The items that [for x in v] visits.  Only lists are visited in the
    runs of interest; a dict yields its keys and a str its characters. *)
Definition py_iter (v : PyVal) : M (list PyVal) :=
  match v with
  | PList l => ret l
  | PDict d => ret (PStr <$> (map_to_list d).*1)
  | PStr s => ret ((fun c => PStr (String c "")) <$> list_ascii_of_string s)
  | _ => raise (Exn TypeError ("'" +:+ type_name v +:+ "' object is not iterable"))
  end.

(** ** Configuration ([src/config.py]) *)

(** The values read from the environment: [os.getenv] gives a str or None. *)
Record Config : Type := {
  DEEPSEEK_API_KEY : option string;
  DEEPSEEK_BASE_URL : string;
  TAVILY_API_KEY : option string;
  GLM_API_KEY : option string;
}.

Definition DEEPSEEK_MODEL : string := "deepseek-chat".
Definition GLM_BASE_URL : string := "https://ark.cn-beijing.volces.com/api/v3/responses".
Definition GLM_MODEL : string := "glm-4-7-251222".

Definition of_getenv (o : option string) : PyVal :=
  match o with
  | Some s => PStr s
  | None => PNone
  end.

(** ** The outside world *)

(** A naive [datetime], as the number of microseconds since the first
    instant of the calendar; the difference of two is a [timedelta]. *)
Definition datetime : Set := Z.

(** The prompts are f-strings around the values below; the embedding keeps
    the interpolated values and leaves the fixed text out. *)
Inductive Prompt : Type :=
| VerificationPrompt (claim : string)
| CrossRefSearchPrompt (topic content : string)
    (search_summary : list (PyVal * PyVal)) (search_results : list PyVal)
| CrossRefPrompt (topic content : string)
| ImprovementPrompt (topic content : string)
    (overall truth freshness consistency : string) (improvement_needs : list string).

Record ChatRequest : Type := {
  cr_model : string;
  cr_system : string;
  cr_user : Prompt;
  cr_temperature : float;
  cr_max_tokens : Z;
}.

Record TavilyRequest : Type := {
  tq_api_key : PyVal;
  tq_query : string;
  tq_search_depth : string;
  tq_max_results : Z;
}.

Record GlmRequest : Type := {
  gq_url : string;
  gq_authorization : string;
  gq_model : string;
  gq_system_prompt : option string;  (* prefixed to the text when given *)
  gq_prompt : Prompt;
  gq_web_search : bool;
  gq_timeout : Z;
}.

(** An HTTP response: [status_code], [text] and the outcome of [json()]. *)
Record HttpResponse : Type := {
  status_code : Z;
  text : string;
  json : M PyVal;
}.

Record World : Type := {
  (** [datetime.now()] *)
  now : datetime;
  (** [client.chat.completions.create(...).choices[0].message.content] *)
  chat_completion : ChatRequest -> M string;
  (** [SimpleTavilyClient.search]: the decoded body, or the exception
      that [requests] or [raise_for_status] raised *)
  tavily_search : TavilyRequest -> M PyVal;
  (** [requests.post] of [ContentImprover._make_glm_request] *)
  requests_post : GlmRequest -> M HttpResponse;
}.

(** ** [src/web_searcher.py] *)

(** The dict that [verify_fact] returns. *)
Record VerificationRound : Type := {
  vr_is_true : option bool;
  vr_confidence : Num;
  vr_reasoning : string;
  vr_sources : list string;
  vr_search_results : list PyVal;
}.

(** The dict that [check_freshness_with_search] returns. *)
Record FreshnessRound : Type := {
  fr_is_fresh : option bool;
  fr_freshness_level : string;
  fr_score : Num;
  fr_reasoning : string;
  fr_latest_info : string;
  fr_search_results : list PyVal;
}.

(** What [FactChecker] uses of its [web_searcher]: the attributes of the
    instance and three methods.  A method may answer differently each time
    it is called; the first argument is the number of the call. *)
Record Searcher : Type := {
  ws_class : string;
  ws_attrs : gmap string PyVal;
  ws_verify_fact : nat -> string -> M VerificationRound;
  ws_check_freshness_with_search : nat -> string -> string -> M FreshnessRound;
  ws_search_topic : string -> Z -> M (list PyVal);
}.

(** [o.name]: an attribute that was never assigned raises. *)
Definition getattr (o : Searcher) (name : string) : M PyVal :=
  match ws_attrs o !! name with
  | Some v => ret v
  | None =>
      raise (Exn AttributeError
               ("'" +:+ ws_class o +:+ "' object has no attribute '" +:+ name +:+ "'"))
  end.

Fixpoint mapM {A B} (f : A -> M B) (l : list A) : M (list B) :=
  match l with
  | [] => ret []
  | x :: rest => y <- f x ;; ys <- mapM f rest ;; ret (y :: ys)
  end.

(** One entry of the list that [_search_with_tavily] builds. *)
Definition tavily_entry (result : PyVal) : M PyVal :=
  title <- py_get result "title" (PStr "无标题") ;;
  content <- py_get result "content" (PStr "") ;;
  summary <- py_slice_to 800 content ;;
  link <- py_get result "url" (PStr "") ;;
  published <- py_get result "published_date" (PStr "") ;;
  ret (dict [("title", title); ("summary", summary); ("link", link);
             ("published", published); ("source", PStr "Tavily API")]).

Definition _search_with_tavily (w : World) (tavily_api_key : PyVal)
    (topic : string) (max_results : Z) : list PyVal :=
  try_except
    (response <- tavily_search w {| tq_api_key := tavily_api_key; tq_query := topic;
                                    tq_search_depth := "advanced";
                                    tq_max_results := max_results |} ;;
     found <- py_get response "results" (PList []) ;;
     items <- py_iter found ;;
     results <- mapM tavily_entry items ;;
     answer <- py_get response "answer" PNone ;;
     _ <- (if truthy answer then py_slice_to 100 answer else ret PNone) ;;
     ret results)
    (fun _ => []).

(** [WebSearcher(api_key)]: [__init__] assigns three attributes, in this
    order, and no other. *)
Definition WebSearcher (cfg : Config) (w : World) (api_key : PyVal) : Searcher :=
  let tavily_api_key := of_getenv (TAVILY_API_KEY cfg) in
  let tavily_client :=
    if truthy tavily_api_key then PObj "SimpleTavilyClient" else PNone in
  {| ws_class := "WebSearcher";
     ws_attrs :=
       <["legacy_api_key" := api_key]>
         (<["tavily_client" := tavily_client]>
            (<["tavily_api_key" := tavily_api_key]> ∅));
     ws_verify_fact := fun _ _ =>
       ret {| vr_is_true := None; vr_confidence := NInt 0;
              vr_reasoning := "Function deprecated to save tokens";
              vr_sources := []; vr_search_results := [] |};
     ws_check_freshness_with_search := fun _ _ _ =>
       ret {| fr_is_fresh := None; fr_freshness_level := "未知"; fr_score := NInt 0;
              fr_reasoning := "Function deprecated to save tokens";
              fr_latest_info := ""; fr_search_results := [] |};
     ws_search_topic := fun topic max_results =>
       if truthy tavily_client
       then ret (_search_with_tavily w tavily_api_key topic max_results)
       else ret [] |}.

(** ** [src/fact_checker.py] *)

Record FactChecker : Type := {
  fc_api_key : PyVal;
  fc_base_url : PyVal;
  fc_client : PyVal;               (* an [OpenAI] client, or None *)
  fc_web_searcher : Searcher;
}.

(** [FactChecker(api_key, base_url, doubao_api_key)] *)
Definition FactChecker_init (cfg : Config) (w : World)
    (api_key base_url doubao_api_key : PyVal) : FactChecker :=
  let key := py_or api_key (of_getenv (DEEPSEEK_API_KEY cfg)) in
  {| fc_api_key := key;
     fc_base_url := py_or base_url (PStr (DEEPSEEK_BASE_URL cfg));
     fc_client := if truthy key then PObj "OpenAI" else PNone;
     fc_web_searcher := WebSearcher cfg w doubao_api_key |}.

(** The list of [_analyze_content_freshness].  Five lines of the source
    end without a comma, so the literal that ends such a line and the one
    that starts the next are one keyword. *)
Definition fresh_keywords : list string :=
  [ "最新"; "新版本"; "刚刚发布"; "今天发布"; "本月";
    "最近"; "新推出"; "正式发布"; "上线"; "发布";
    "v2.0"; "v3.0"; "v4.0"; "v5.0"; "v6.0";
    "2025"; "2026"; "2027"; "2028"; "2029"; "2030";
    "beta"; "alpha"; "rc"; "release"; "stable" +:+
    "更新"; "升级"; "新增"; "改进"; "优化"; "修复" +:+
    "breaking news"; "breaking"; "突发"; "重磅"; "重磅" +:+
    "首次"; "first"; "首个"; "第一"; "初次" +:+
    "最新消息"; "最新动态"; "最新进展"; "最新情况" +:+
    "今天"; "今日"; "现在"; "当前"; "正在" ].

(** [sum(1 for keyword in fresh_keywords if keyword in content_lower)] *)
Definition fresh_count (content : string) : nat :=
  length (filter (fun keyword => Is_true (str_in keyword (str_lower content))) fresh_keywords).

(** The dict that [_analyze_content_freshness] returns. *)
Record ContentFreshness : Type := {
  cf_is_fresh : bool;
  cf_freshness_level : string;
  cf_score : Z;
  cf_reasoning : string;
  cf_method : string;
}.

Definition content_freshness_dict (c : ContentFreshness) : PyVal :=
  dict [("is_fresh", PBool (cf_is_fresh c)); ("freshness_level", PStr (cf_freshness_level c));
        ("score", PInt (cf_score c)); ("reasoning", PStr (cf_reasoning c));
        ("method", PStr (cf_method c))].

Definition _analyze_content_freshness (content topic : string) : ContentFreshness :=
  let n := fresh_count content in
  if (3 <=? n)%nat then
    {| cf_is_fresh := true; cf_freshness_level := "最新"; cf_score := 95;
       cf_reasoning := "内容包含 " +:+ str_of_nat n +:+ " 个新鲜度关键词，判断为最新";
       cf_method := "content_analysis" |}
  else if (1 <=? n)%nat then
    {| cf_is_fresh := true; cf_freshness_level := "较新"; cf_score := 85;
       cf_reasoning := "内容包含 " +:+ str_of_nat n +:+ " 个新鲜度关键词，判断为较新";
       cf_method := "content_analysis" |}
  else
    {| cf_is_fresh := false; cf_freshness_level := "未知"; cf_score := 50;
       cf_reasoning := "内容未包含明显的新鲜度关键词";
       cf_method := "content_analysis" |}.

(** The loop [for i in range(2)] of [verify_claim] and of
    [check_freshness]: one call per round, the usable results kept in
    order. *)
Fixpoint collect_rounds {R} (call : nat -> M R) (usable : R -> bool)
    (rounds : list nat) : M (list R) :=
  match rounds with
  | [] => ret []
  | i :: rest =>
      r <- call i ;;
      rs <- collect_rounds call usable rest ;;
      ret (if usable r then r :: rs else rs)
  end.

(** [all(r.get(key) for r in results)] on the verdicts of the rounds. *)
Definition all_true {R} (verdict : R -> option bool) (results : list R) : bool :=
  forallb (fun r => truthy (from_option PBool PNone (verdict r))) results.

Definition _parse_verification_result (text : string) : PyVal :=
  try_except (json_loads text)
    (fun _ => dict [("is_true", PNone); ("confidence", PInt 50); ("reasoning", PStr text);
                    ("sources", PList []); ("method", PStr "none")]).

Definition _parse_cross_ref_result (text : string) : PyVal :=
  try_except (json_loads text)
    (fun _ => dict [("is_consistent", PNone); ("confidence", PInt 50);
                    ("known_facts", PList []); ("contradictions", PList []);
                    ("additional_context", PStr text); ("reasoning", PStr "");
                    ("method", PStr "none")]).

Definition rounds_suffix (n : nat) : string := str_of_nat n +:+ " 轮验证）".

(** The four bands of the reasoning of [verify_claim]. *)
Definition claim_reasoning (is_true : bool) (avg_confidence : float) (n : nat) : string :=
  if is_true && (80 <=? avg_confidence)%float then
    "多源验证一致，可信度高（" +:+ rounds_suffix n
  else if is_true && (60 <=? avg_confidence)%float then
    "多源验证基本一致，可信度中等（" +:+ rounds_suffix n
  else if negb is_true then
    "多源验证发现矛盾，可信度低（" +:+ rounds_suffix n
  else
    "多源验证结果不一致，需要人工审核（" +:+ rounds_suffix n.

(** The verdict of [verify_claim] from a non-empty list of usable rounds
    (lines 140 to 167). *)
Definition consensus_verdict (verification_results : list VerificationRound) : M PyVal :=
  total <- py_sum (vr_confidence <$> verification_results) ;;
  avg_confidence <- num_truediv total (Pos.of_nat (length verification_results)) ;;
  let all_sources := concat (vr_sources <$> verification_results) in
  let all_search_results := concat (vr_search_results <$> verification_results) in
  let is_true := all_true vr_is_true verification_results in
  let reasoning := claim_reasoning is_true avg_confidence (length verification_results) in
  ret (dict [("is_true", PBool is_true);
             ("confidence", PFloat avg_confidence);
             ("reasoning", PStr reasoning);
             ("sources", PList (PStr <$> set_to_list all_sources));
             ("search_results", PList all_search_results);
             ("method", PStr "multi_source_web_search");
             ("verification_count", PInt (Z.of_nat (length verification_results)))]).

Definition claim_usable (r : VerificationRound) : bool := num_gtb (vr_confidence r) 0.

(** The [try] block of [verify_claim]. *)
Definition verify_claim_body (self : FactChecker) (w : World) (claim : string) : M PyVal :=
  api_key <- getattr (fc_web_searcher self) "api_key" ;;
  grounded <-
    (if truthy api_key then
       verification_results <-
         collect_rounds (fun i => ws_verify_fact (fc_web_searcher self) i claim)
           claim_usable (seq 0 2) ;;
       match verification_results with
       | [] => ret None
       | _ :: _ => v <- consensus_verdict verification_results ;; ret (Some v)
       end
     else ret None) ;;
  match grounded with
  | Some v => ret v
  | None =>
      if negb (truthy (fc_client self)) then
        ret (dict [("is_true", PNone); ("confidence", PInt 0);
                   ("reasoning", PStr "未配置 API Key，无法验证");
                   ("sources", PList []); ("method", PStr "none")])
      else
        content <- chat_completion w
          {| cr_model := DEEPSEEK_MODEL;
             cr_system := "你是一个严格的事实核查员，对信息真实性要求极高";
             cr_user := VerificationPrompt claim;
             cr_temperature := 0.1; cr_max_tokens := 800 |} ;;
        ret (_parse_verification_result (str_strip content))
  end.

(** The verdict of the [except] branch of [verify_claim]. *)
Definition claim_error_verdict (e : exn) : PyVal :=
  dict [("is_true", PNone); ("confidence", PInt 0);
        ("reasoning", PStr ("验证失败: " +:+ exn_msg e));
        ("sources", PList []); ("method", PStr "none")].

Definition verify_claim (self : FactChecker) (w : World) (claim : string) : PyVal :=
  try_except (verify_claim_body self w claim) claim_error_verdict.

(** [(datetime.now() - timestamp).total_seconds() / 3600].  A timedelta
    is a bounded number of microseconds, so its quotient by [10**6] is a
    finite float. *)
Definition total_seconds (delta : Z) : float := round_quotient delta 1000000.

Definition age_hours (w : World) (timestamp : datetime) : float :=
  (total_seconds (now w - timestamp) / 3600)%float.

(** The [if]/[elif] chain on [age] (lines 253 to 273). *)
Definition time_band (age : float) : string * Z :=
  if (age <? 1)%float then ("最新", 100)
  else if (age <? 24)%float then ("今日", 95)
  else if (age <? 48)%float then ("近2天", 85)
  else if (age <? 72)%float then ("近3天", 70)
  else if (age <? 168)%float then ("近一周", 50)
  else if (age <? 720)%float then ("近一月", 30)
  else ("较旧", 10).

Record TimeFreshness : Type := {
  time_freshness : string;
  time_score : Z;
  time_reasoning : string;
}.

(** The time part of [check_freshness] (lines 250 to 279).  A [datetime]
    is always true, so [if timestamp] tests for None. *)
Definition time_part (w : World) (timestamp : option datetime) : TimeFreshness :=
  match timestamp with
  | Some ts =>
      let age := age_hours w ts in
      {| time_freshness := (time_band age).1;
         time_score := (time_band age).2;
         time_reasoning := "内容发布于 " +:+ format_1f age +:+ " 小时前" |}
  | None =>
      {| time_freshness := "未知";
         time_score := 50;
         time_reasoning := "无时间戳信息，无法判断时效性" |}
  end.

Definition freshness_round_dict (r : FreshnessRound) : PyVal :=
  dict [("is_fresh", from_option PBool PNone (fr_is_fresh r));
        ("freshness_level", PStr (fr_freshness_level r));
        ("score", of_num (fr_score r));
        ("reasoning", PStr (fr_reasoning r));
        ("latest_info", PStr (fr_latest_info r));
        ("search_results", PList (fr_search_results r))].

Definition web_level (final_score : float) : string :=
  if (85 <=? final_score)%float then "最新"
  else if (70 <=? final_score)%float then "较新"
  else if (50 <=? final_score)%float then "一般"
  else "过时".

Definition web_reasoning (is_fresh : bool) (avg_web_score : float) (n : nat) : string :=
  if is_fresh && (85 <=? avg_web_score)%float then
    "多源验证一致，内容非常新鲜（" +:+ rounds_suffix n
  else if is_fresh && (70 <=? avg_web_score)%float then
    "多源验证基本一致，内容较新（" +:+ rounds_suffix n
  else if negb is_fresh then
    "多源验证发现内容过时或信息陈旧（" +:+ rounds_suffix n
  else
    "多源验证结果不一致，需要人工审核（" +:+ rounds_suffix n.

(** The verdict of [check_freshness] from a non-empty list of usable
    rounds (lines 297 to 337). *)
Definition web_freshness_verdict (t : TimeFreshness) (content_freshness : ContentFreshness)
    (web_freshness_results : list FreshnessRound) : M PyVal :=
  total <- py_sum (fr_score <$> web_freshness_results) ;;
  avg_web_score <- num_truediv total (Pos.of_nat (length web_freshness_results)) ;;
  let all_search_results := concat (fr_search_results <$> web_freshness_results) in
  let is_fresh := all_true fr_is_fresh web_freshness_results in
  a <- float_of_int (time_score t) ;;
  c <- float_of_int (cf_score content_freshness) ;;
  let final_score := (a * 0.25 + avg_web_score * 0.55 + c * 0.20)%float in
  let reasoning := web_reasoning is_fresh avg_web_score (length web_freshness_results) in
  ret (dict [("is_fresh", PBool is_fresh);
             ("freshness_level", PStr (web_level final_score));
             ("score", PFloat final_score);
             ("time_freshness", PStr (time_freshness t));
             ("time_score", PInt (time_score t));
             ("content_freshness", content_freshness_dict content_freshness);
             ("web_freshness", PList (freshness_round_dict <$> web_freshness_results));
             ("reasoning", PStr ("时间新鲜度：" +:+ time_reasoning t +:+ "，内容新鲜度：" +:+
                                 cf_reasoning content_freshness +:+ "，Web 搜索新鲜度：" +:+
                                 reasoning));
             ("method", PStr "multi_source_web_search");
             ("search_results", PList all_search_results);
             ("verification_count", PInt (Z.of_nat (length web_freshness_results)))]).

(** The tiers of the blend without a search score (lines 341 to 352). *)
Definition hybrid_tier (final_score : float) : bool * string :=
  if (80 <=? final_score)%float then (true, "最新")
  else if (60 <=? final_score)%float then (true, "较新")
  else if (40 <=? final_score)%float then (false, "一般")
  else (false, "过时").

(** The verdict of [check_freshness] without a search score (lines 339 to
    364). *)
Definition hybrid_verdict (t : TimeFreshness) (content_freshness : ContentFreshness) : M PyVal :=
  a <- float_of_int (time_score t) ;;
  c <- float_of_int (cf_score content_freshness) ;;
  let final_score := (a * 0.4 + c * 0.6)%float in
  ret (dict [("is_fresh", PBool (hybrid_tier final_score).1);
             ("freshness_level", PStr (hybrid_tier final_score).2);
             ("score", PFloat final_score);
             ("time_freshness", PStr (time_freshness t));
             ("time_score", PInt (time_score t));
             ("content_freshness", content_freshness_dict content_freshness);
             ("reasoning", PStr ("时间新鲜度：" +:+ time_reasoning t +:+ "，内容新鲜度：" +:+
                                 cf_reasoning content_freshness +:+
                                 "（未启用 Web 搜索验证）"));
             ("method", PStr "hybrid");
             ("warning", PStr "未启用 Web 搜索验证，时效性判断可能不准确")]).

Definition freshness_usable (r : FreshnessRound) : bool := num_gtb (fr_score r) 0.

(** The [try] block of [check_freshness]. *)
Definition check_freshness_body (self : FactChecker) (w : World)
    (content topic : string) (timestamp : option datetime) : M PyVal :=
  let t := time_part w timestamp in
  let content_freshness := _analyze_content_freshness content topic in
  api_key <- getattr (fc_web_searcher self) "api_key" ;;
  grounded <-
    (if truthy api_key then
       web_freshness_results <-
         collect_rounds
           (fun i => ws_check_freshness_with_search (fc_web_searcher self) i topic content)
           freshness_usable (seq 0 2) ;;
       match web_freshness_results with
       | [] => ret None
       | _ :: _ =>
           v <- web_freshness_verdict t content_freshness web_freshness_results ;;
           ret (Some v)
       end
     else ret None) ;;
  match grounded with
  | Some v => ret v
  | None => hybrid_verdict t content_freshness
  end.

(** The verdict of the [except] branch of [check_freshness]. *)
Definition freshness_error_verdict (e : exn) : PyVal :=
  dict [("is_fresh", PNone); ("freshness_level", PStr "未知"); ("score", PInt 0);
        ("time_freshness", PStr "未知"); ("time_score", PInt 0);
        ("content_freshness", PDict ∅);
        ("reasoning", PStr ("检查失败: " +:+ exn_msg e));
        ("method", PStr "hybrid")].

Definition check_freshness (self : FactChecker) (w : World)
    (content topic : string) (timestamp : option datetime) : PyVal :=
  try_except (check_freshness_body self w content topic timestamp) freshness_error_verdict.

(** One line of the digest of [cross_reference]: the title and the first
    hundred characters of the summary. *)
Definition summary_line (result : PyVal) : M (PyVal * PyVal) :=
  title <- py_get result "title" (PStr "") ;;
  summary <- py_get result "summary" (PStr "") ;;
  excerpt <- py_slice_to 100 summary ;;
  ret (title, excerpt).

Definition cross_ref_request (user : Prompt) : ChatRequest :=
  {| cr_model := DEEPSEEK_MODEL;
     cr_system := "你是一个科技新闻交叉验证员";
     cr_user := user;
     cr_temperature := 0.3; cr_max_tokens := 800 |}.

Definition cross_ref_no_key (confidence : Z) : PyVal :=
  dict [("is_consistent", PNone); ("confidence", PInt confidence);
        ("known_facts", PList []); ("contradictions", PList []);
        ("additional_context", PStr "");
        ("reasoning", PStr "未配置 API Key，无法验证"); ("method", PStr "none")].

(** The [try] block of [cross_reference]. *)
Definition cross_reference_body (self : FactChecker) (w : World)
    (topic content : string) : M PyVal :=
  api_key <- getattr (fc_web_searcher self) "api_key" ;;
  grounded <-
    (if truthy api_key then
       search_results <- ws_search_topic (fc_web_searcher self) topic 5 ;;
       match search_results with
       | [] => ret None
       | _ :: _ =>
           search_summary <- mapM summary_line (take 3 search_results) ;;
           let cross_ref_prompt :=
             CrossRefSearchPrompt topic (str_slice_to 800 content)
               search_summary (take 3 search_results) in
           if negb (truthy (fc_client self)) then ret (Some (cross_ref_no_key 50))
           else
             answer <- chat_completion w (cross_ref_request cross_ref_prompt) ;;
             let parsed_result := _parse_cross_ref_result (str_strip answer) in
             with_results <- py_setitem parsed_result "search_results" (PList search_results) ;;
             with_method <- py_setitem with_results "method" (PStr "web_search") ;;
             ret (Some with_method)
       end
     else ret None) ;;
  match grounded with
  | Some v => ret v
  | None =>
      if negb (truthy (fc_client self)) then ret (cross_ref_no_key 0)
      else
        answer <- chat_completion w
          (cross_ref_request (CrossRefPrompt topic (str_slice_to 800 content))) ;;
        ret (_parse_cross_ref_result (str_strip answer))
  end.

(** The verdict of the [except] branch of [cross_reference]. *)
Definition cross_ref_error_verdict (e : exn) : PyVal :=
  dict [("is_consistent", PNone); ("confidence", PInt 0);
        ("known_facts", PList []); ("contradictions", PList []);
        ("additional_context", PStr "");
        ("reasoning", PStr ("验证失败: " +:+ exn_msg e)); ("method", PStr "none")].

Definition cross_reference (self : FactChecker) (w : World) (topic content : string) : PyVal :=
  try_except (cross_reference_body self w topic content) cross_ref_error_verdict.

(** The recommendation and the quality level (lines 554 to 571). *)
Definition quality_band (overall_score : float) : string * string :=
  if (90 <=? overall_score)%float then ("✅ 内容质量优秀，强烈推荐发布", "优秀")
  else if (80 <=? overall_score)%float then ("✅ 内容质量良好，推荐发布", "良好")
  else if (70 <=? overall_score)%float then
    ("⚠️ 内容质量达标，可以发布，但建议人工审核", "达标")
  else if (60 <=? overall_score)%float then ("❌ 内容质量一般，不建议发布，需要修改", "一般")
  else if (50 <=? overall_score)%float then
    ("❌ 内容质量较差，不建议发布，需要大幅修改", "较差")
  else ("❌ 内容质量很差，绝对不能发布", "很差").

Definition truth_moderate : string := "真实性不足：建议重新核实事实，添加更多可靠来源".
Definition freshness_moderate : string := "时效性不足：建议更新内容，添加最新信息".
Definition consistency_moderate : string := "一致性不足：建议检查内容逻辑，确保信息一致".
Definition truth_severe : string := "警告：内容可能包含虚假信息，必须彻底核查".
Definition freshness_severe : string := "警告：内容可能过时，建议重新获取最新资讯".

(** [if cond: improvement_suggestions.append(s)] *)
Definition append_if (cond : bool) (s : string) (l : list string) : list string :=
  if cond then l ++ [s] else l.

(** The five [if] statements of lines 573 to 585, in their order. *)
Definition improvement_suggestions_of (t70 f70 c70 t50 f50 : bool) : list string :=
  append_if f50 freshness_severe
    (append_if t50 truth_severe
       (append_if c70 consistency_moderate
          (append_if f70 freshness_moderate
             (append_if t70 truth_moderate [])))).

(** The part of [comprehensive_check] after the three checks (lines 542 to
    610). *)
Definition quality_report (truth_check freshness_check consistency_check : PyVal) : M PyVal :=
  truth_score <- py_get truth_check "confidence" (PInt 0) ;;
  freshness_score <- py_get freshness_check "score" (PInt 0) ;;
  consistency_score <- py_get consistency_check "confidence" (PInt 0) ;;
  a <- py_mul_float truth_score 0.35 ;;
  b <- py_mul_float freshness_score 0.45 ;;
  c <- py_mul_float consistency_score 0.20 ;;
  let overall_score := (a + b + c)%float in
  let is_pass := (70 <=? overall_score)%float in
  t70 <- py_lt_int truth_score 70 ;;
  f70 <- py_lt_int freshness_score 70 ;;
  c70 <- py_lt_int consistency_score 70 ;;
  t50 <- py_lt_int truth_score 50 ;;
  f50 <- py_lt_int freshness_score 50 ;;
  ret (dict [("overall_score", PFloat overall_score);
             ("is_pass", PBool is_pass);
             ("quality_level", PStr (quality_band overall_score).2);
             ("truth_check", truth_check);
             ("freshness_check", freshness_check);
             ("consistency_check", consistency_check);
             ("recommendation", PStr (quality_band overall_score).1);
             ("improvement_suggestions",
              PList (PStr <$> improvement_suggestions_of t70 f70 c70 t50 f50));
             ("score_breakdown",
              dict [("truth_score", truth_score);
                    ("freshness_score", freshness_score);
                    ("consistency_score", consistency_score);
                    ("weights", dict [("truth", PFloat 0.35); ("freshness", PFloat 0.45);
                                      ("consistency", PFloat 0.20)])])]).

Definition comprehensive_check (self : FactChecker) (w : World)
    (topic content : string) (timestamp : option datetime) : M PyVal :=
  let truth_check := verify_claim self w content in
  let freshness_check := check_freshness self w content topic timestamp in
  let consistency_check := cross_reference self w topic content in
  quality_report truth_check freshness_check consistency_check.

(** ** [src/content_improver.py] *)

Definition fence_json : string := "```json\s*\n?([\s\S]*?)\n?```".
Definition fence_any : string := "```\s*\n?([\s\S]*?)\n?```".

Definition clean_json_response (text : string) : string :=
  if negb (truthy (PStr text)) then text
  else
    match re_search fence_json text with
    | Some group1 => str_strip group1
    | None =>
        match re_search fence_any text with
        | Some group1 => str_strip group1
        | None => str_strip text
        end
    end.

Record ContentImprover : Type := {
  ci_api_key : PyVal;
  ci_base_url : string;
  ci_model : string;
}.

(** [ContentImprover(api_key)] *)
Definition ContentImprover_init (cfg : Config) (api_key : PyVal) : ContentImprover :=
  {| ci_api_key := py_or api_key (of_getenv (GLM_API_KEY cfg));
     ci_base_url := GLM_BASE_URL;
     ci_model := GLM_MODEL |}.

(** [k in v] for a str [k]. *)
Definition py_contains (k : string) (v : PyVal) : M bool :=
  match v with
  | PDict d => ret (bool_decide (is_Some (d !! k)))
  | PList l => ret (existsb (fun x => match x with PStr s => String.eqb s k | _ => false end) l)
  | PStr s => ret (str_in k s)
  | _ => raise (Exn TypeError ("argument of type '" +:+ type_name v +:+ "' is not iterable"))
  end.

(** [v == k] for a str [k]. *)
Definition py_eq_str (v : PyVal) (k : string) : bool :=
  match v with
  | PStr s => String.eqb s k
  | _ => false
  end.

Definition newline : string := String (ascii_of_nat 10) "".

(** [sep.join(l)]: every item must be a str. *)
Fixpoint py_join (sep : string) (l : list PyVal) : M string :=
  match l with
  | [] => ret ""
  | [PStr s] => ret s
  | PStr s :: rest => r <- py_join sep rest ;; ret (s +:+ sep +:+ r)
  | v :: _ => raise (Exn TypeError ("sequence item: expected str instance, " +:+
                                    type_name v +:+ " found"))
  end.

(** The texts that one item of [output] contributes (lines 138 to 151). *)
Definition output_item_texts (item : PyVal) : M (list PyVal) :=
  item_type <- py_get item "type" (PStr "unknown") ;;
  role <- (if py_eq_str item_type "message" then py_get item "role" PNone else ret PNone) ;;
  if py_eq_str item_type "message" && py_eq_str role "assistant" then
    parts <- py_get item "content" (PList []) ;;
    content_items <- py_iter parts ;;
    found <- mapM (fun content_item =>
                     kind <- py_get content_item "type" PNone ;;
                     if py_eq_str kind "output_text" then
                       t <- py_get content_item "text" (PStr "") ;;
                       ret (if truthy t then [t] else [])
                     else ret []) content_items ;;
    ret (concat found)
  else if py_eq_str item_type "web_search_call" then
    action <- py_get item "action" (PDict ∅) ;;
    _ <- py_get action "query" (PStr "N/A") ;;
    ret []
  else ret [].

Definition _make_glm_request (self : ContentImprover) (w : World) (prompt : Prompt)
    (system_prompt : option string) (enable_web_search : bool) (max_tokens : Z) : M string :=
  if negb (truthy (ci_api_key self)) then raise (Exn ValueError "GLM API Key 未配置")
  else
    response <- requests_post w
      {| gq_url := ci_base_url self;
         gq_authorization := "Bearer " +:+ py_str (ci_api_key self);
         gq_model := ci_model self;
         gq_system_prompt := system_prompt;
         gq_prompt := prompt;
         gq_web_search := enable_web_search;
         gq_timeout := 60 |} ;;
    if negb (status_code response =? 200) then
      raise (Exn OtherException ("HTTP 错误: " +:+ pretty (status_code response) +:+ " - " +:+
                                 str_slice_to 500 (text response)))
    else
      result <- json response ;;
      has_error <- py_contains "error" result ;;
      if has_error then
        error <- py_getitem result "error" ;;
        error_code <- py_get error "code" (PStr "unknown") ;;
        error_message <- py_get error "message" (PStr "unknown") ;;
        raise (Exn OtherException ("API 错误 [" +:+ py_str error_code +:+ "]: " +:+
                                   py_str error_message))
      else
        has_output <- py_contains "output" result ;;
        if negb has_output then raise (Exn OtherException "响应中没有 output 字段")
        else
          output <- py_getitem result "output" ;;
          output_items <- py_iter output ;;
          texts <- mapM output_item_texts output_items ;;
          let collected_text := concat texts in
          match collected_text with
          | [] => raise (Exn OtherException "GLM-4.7 响应中未找到有效文本内容")
          | _ :: _ =>
              content <- py_join newline collected_text ;;
              has_usage <- py_contains "usage" result ;;
              _ <- (if has_usage then
                      usage <- py_getitem result "usage" ;;
                      py_get usage "total_tokens" (PInt 0)
                    else ret PNone) ;;
              ret content
          end.

(** [format(v, ".1f")] *)
Definition py_format_1f (v : PyVal) : M string :=
  match v with
  | PStr _ => raise (Exn ValueError "Unknown format code 'f' for object of type 'str'")
  | _ =>
      match as_num v with
      | Some n => x <- to_float n ;; ret (format_1f x)
      | None => raise (Exn TypeError ("unsupported format string passed to " +:+
                                      type_name v +:+ ".__format__"))
      end
  end.

(** [len(v)] succeeds on the sized values. *)
Definition py_len (v : PyVal) : M Z :=
  match v with
  | PList l => ret (Z.of_nat (length l))
  | PDict d => ret (Z.of_nat (size d))
  | PStr s => ret (Z.of_nat (String.length s))
  | _ => raise (Exn TypeError ("object of type '" +:+ type_name v +:+ "' has no len()"))
  end.

(** [if score < 70: improvement_needs.append(f"... {score:.1f} ...")] *)
Definition need_if_low (score : PyVal) (before after : string) (needs : list string)
    : M (list string) :=
  low <- py_lt_int score 70 ;;
  if low then shown <- py_format_1f score ;; ret (needs ++ [before +:+ shown +:+ after])%list
  else ret needs.

(** The dict of the three failure returns of [improve_content]. *)
Definition improvement_failure (content : string) (reasoning : string) : PyVal :=
  dict [("success", PBool false); ("improved_content", PStr content);
        ("improvements", PList []); ("reasoning", PStr reasoning)].

(** The inner [try] block of [improve_content] (lines 259 to 274). *)
Definition read_improvement (content cleaned_result : string) : M PyVal :=
  result <- json_loads cleaned_result ;;
  improved_content <- py_get result "improved_content" (PStr content) ;;
  improvements <- py_get result "improvements" (PList []) ;;
  reasoning <- py_get result "reasoning" (PStr "") ;;
  _ <- py_len improvements ;;
  items <- py_iter improvements ;;
  _ <- mapM (fun imp => py_get imp "issue" (PStr "")) items ;;
  ret (dict [("success", PBool true); ("improved_content", improved_content);
             ("improvements", improvements); ("reasoning", reasoning)]).

Definition is_json_decode_error (e : exn) : bool :=
  match exn_cls e with
  | JSONDecodeError => true
  | _ => false
  end.

Definition improvement_system_prompt : string :=
  "你是一个专业的内容编辑，擅长根据质量反馈改进科技新闻内容，目标是提高真实性、时效性和一致性。".

(** The outer [try] block of [improve_content] (lines 191 to 285). *)
Definition improve_content_body (self : ContentImprover) (w : World)
    (topic content : string) (check_result : PyVal) : M PyVal :=
  score_breakdown <- py_getitem check_result "score_breakdown" ;;
  truth_score <- py_getitem score_breakdown "truth_score" ;;
  score_breakdown <- py_getitem check_result "score_breakdown" ;;
  freshness_score <- py_getitem score_breakdown "freshness_score" ;;
  score_breakdown <- py_getitem check_result "score_breakdown" ;;
  consistency_score <- py_getitem score_breakdown "consistency_score" ;;
  overall_score <- py_getitem check_result "overall_score" ;;
  needs <- need_if_low truth_score "真实性评分 " " 分过低，需要核实事实，添加可靠来源" [] ;;
  needs <- need_if_low freshness_score "时效性评分 " " 分过低，需要更新内容，添加最新信息" needs ;;
  needs <- need_if_low consistency_score "一致性评分 "
             " 分过低，需要检查内容逻辑，确保信息一致" needs ;;
  suggestions <- py_get check_result "improvement_suggestions" PNone ;;
  improvement_needs <-
    (if truthy suggestions then
       again <- py_getitem check_result "improvement_suggestions" ;;
       extra <- py_iter again ;;
       ret (needs ++ (py_str <$> extra))%list
     else ret needs) ;;
  overall <- py_format_1f overall_score ;;
  truth <- py_format_1f truth_score ;;
  freshness <- py_format_1f freshness_score ;;
  consistency <- py_format_1f consistency_score ;;
  let improvement_prompt :=
    ImprovementPrompt topic content overall truth freshness consistency improvement_needs in
  result_text <-
    _make_glm_request self w improvement_prompt (Some improvement_system_prompt) true 3000 ;;
  let cleaned_result := clean_json_response result_text in
  match read_improvement content cleaned_result with
  | inr v => ret v
  | inl e =>
      if is_json_decode_error e
      then ret (improvement_failure content ("解析失败: " +:+ exn_msg e))
      else raise e
  end.

Definition improve_content (self : ContentImprover) (w : World)
    (topic content : string) (check_result : PyVal) : PyVal :=
  if negb (truthy (ci_api_key self)) then
    improvement_failure content "未配置 API Key，无法改进内容"
  else
    try_except (improve_content_body self w topic content check_result)
      (fun e => improvement_failure content ("改进失败: " +:+ exn_msg e)).

End Model.

(** ** The functions that the checks do not call *)

Section Helpers.
Context {RT : PyRuntime}.

(** [topic_lower.split()]: the words of a text, cut at white space. *)
Variable str_split : string -> list string.

(** [sum(1 for keyword in topic_keywords if keyword in content_lower)] *)
Definition relevance_count (content topic : string) : nat :=
  length (filter (fun keyword => Is_true (str_in keyword (str_lower content)))
            (str_split (str_lower topic))).

Definition _check_topic_relevance (content topic : string) : PyVal :=
  let n := relevance_count content topic in
  if (3 <=? n)%nat then
    dict [("is_relevant", PBool true); ("relevance_score", PInt 90);
          ("reasoning", PStr ("内容与话题高度相关（包含 " +:+ str_of_nat n +:+ " 个关键词）"));
          ("method", PStr "keyword_matching")]
  else if (1 <=? n)%nat then
    dict [("is_relevant", PBool true); ("relevance_score", PInt 70);
          ("reasoning", PStr ("内容与话题相关（包含 " +:+ str_of_nat n +:+ " 个关键词）"));
          ("method", PStr "keyword_matching")]
  else
    dict [("is_relevant", PBool false); ("relevance_score", PInt 30);
          ("reasoning", PStr "内容与话题相关性较低");
          ("method", PStr "keyword_matching")].

(** [if score < 50: needs.append(severe) elif score < 70: needs.append(moderate)] *)
Definition need_by_severity (score : PyVal) (severe moderate : string)
    (needs : list PyVal) : M (list PyVal) :=
  below_50 <- py_lt_int score 50 ;;
  if below_50 then ret (needs ++ [PStr severe])%list
  else
    below_70 <- py_lt_int score 70 ;;
    ret (if below_70 then needs ++ [PStr moderate] else needs)%list.

Definition truth_need_severe : string := "严重问题：内容可能包含虚假信息，必须彻底核查所有事实".
Definition truth_need_moderate : string := "中等问题：部分信息可能不准确，需要核实并添加可靠来源".
Definition freshness_need_severe : string := "严重问题：内容可能严重过时，建议重新获取最新资讯".
Definition freshness_need_moderate : string := "中等问题：部分信息可能不够新鲜，需要更新最新动态".
Definition consistency_need_severe : string := "严重问题：内容存在明显矛盾，需要全面检查逻辑".
Definition consistency_need_moderate : string := "中等问题：部分信息可能不一致，需要统一表述".

(** [ContentImprover.analyze_improvement_needs]: no [try] here, an
    exception reaches the caller. *)
Definition analyze_improvement_needs (check_result : PyVal) : M (list PyVal) :=
  score_breakdown <- py_getitem check_result "score_breakdown" ;;
  truth_score <- py_getitem score_breakdown "truth_score" ;;
  score_breakdown <- py_getitem check_result "score_breakdown" ;;
  freshness_score <- py_getitem score_breakdown "freshness_score" ;;
  score_breakdown <- py_getitem check_result "score_breakdown" ;;
  consistency_score <- py_getitem score_breakdown "consistency_score" ;;
  needs <- need_by_severity truth_score truth_need_severe truth_need_moderate [] ;;
  needs <- need_by_severity freshness_score freshness_need_severe freshness_need_moderate needs ;;
  needs <- need_by_severity consistency_score consistency_need_severe
             consistency_need_moderate needs ;;
  suggestions <- py_get check_result "improvement_suggestions" PNone ;;
  if truthy suggestions then
    again <- py_getitem check_result "improvement_suggestions" ;;
    extra <- py_iter again ;;
    ret (needs ++ extra)%list
  else ret needs.

(** The prompt of [improve_content]: lines 193 to 250 of its [try] block,
    up to the request. *)
Definition improvement_prompt (topic content : string) (check_result : PyVal) : M Prompt :=
  score_breakdown <- py_getitem check_result "score_breakdown" ;;
  truth_score <- py_getitem score_breakdown "truth_score" ;;
  score_breakdown <- py_getitem check_result "score_breakdown" ;;
  freshness_score <- py_getitem score_breakdown "freshness_score" ;;
  score_breakdown <- py_getitem check_result "score_breakdown" ;;
  consistency_score <- py_getitem score_breakdown "consistency_score" ;;
  overall_score <- py_getitem check_result "overall_score" ;;
  needs <- need_if_low truth_score "真实性评分 " " 分过低，需要核实事实，添加可靠来源" [] ;;
  needs <- need_if_low freshness_score "时效性评分 " " 分过低，需要更新内容，添加最新信息" needs ;;
  needs <- need_if_low consistency_score "一致性评分 "
             " 分过低，需要检查内容逻辑，确保信息一致" needs ;;
  suggestions <- py_get check_result "improvement_suggestions" PNone ;;
  improvement_needs <-
    (if truthy suggestions then
       again <- py_getitem check_result "improvement_suggestions" ;;
       extra <- py_iter again ;;
       ret (needs ++ (py_str <$> extra))%list
     else ret needs) ;;
  overall <- py_format_1f overall_score ;;
  truth <- py_format_1f truth_score ;;
  freshness <- py_format_1f freshness_score ;;
  consistency <- py_format_1f consistency_score ;;
  ret (ImprovementPrompt topic content overall truth freshness consistency improvement_needs).

End Helpers.

(** ** A runtime and a world for the closed examples

    The examples below run the code on ASCII text.  On such text the
    functions of [ascii_runtime] are those of the Python library;
    [json.loads] is given by the table [documents] of the texts that an
    example decodes, every other text of the example not being JSON. *)

Definition ascii_lower_char (c : ascii) : ascii :=
  let n := nat_of_ascii c in
  if (65 <=? n)%nat && (n <=? 90)%nat then ascii_of_nat (n + 32) else c.

Fixpoint map_chars (f : ascii -> ascii) (s : string) : string :=
  match s with
  | EmptyString => EmptyString
  | String c rest => String (f c) (map_chars f rest)
  end.

Definition ascii_lower (s : string) : string := map_chars ascii_lower_char s.

(** The ASCII characters for which [str.isspace] holds. *)
Definition ascii_space (c : ascii) : bool :=
  let n := nat_of_ascii c in
  ((9 <=? n)%nat && (n <=? 13)%nat) || ((28 <=? n)%nat && (n <=? 32)%nat).

Fixpoint lstrip (s : string) : string :=
  match s with
  | EmptyString => EmptyString
  | String c rest => if ascii_space c then lstrip rest else s
  end.

Definition rstrip (s : string) : string :=
  String.rev (lstrip (String.rev s)).

Definition ascii_strip (s : string) : string := rstrip (lstrip s).

Definition slice_to (n : nat) (s : string) : string := String.substring 0 n s.

(** [format(x, ".1f")]: the tenths nearest to the exact value of [x], ties
    to even. *)
Definition exact_format_1f (x : float) : string :=
  match Prim2SF x with
  | S754_nan => "nan"
  | S754_infinity s => if s then "-inf" else "inf"
  | S754_zero s => if s then "-0.0" else "0.0"
  | S754_finite s m e =>
      let num := Zpos m * 10 * 2 ^ Z.max e 0 in
      let den := 2 ^ Z.max (- e) 0 in
      let q := num / den in
      let r := num mod den in
      let tenths :=
        if 2 * r <? den then q
        else if den <? 2 * r then q + 1
        else if Z.even q then q else q + 1 in
      (if s then "-" else "") +:+ pretty (tenths / 10) +:+ "." +:+ pretty (tenths mod 10)
  end.

(** The first occurrence of [needle] in [hay]: the text before it and the
    text after it. *)
Fixpoint split_at (fold : ascii -> ascii) (needle hay : string) : option (string * string) :=
  if String.prefix needle (map_chars fold hay)
  then Some ("", String.substring (String.length needle) (String.length hay) hay)
  else
    match hay with
    | EmptyString => None
    | String c rest =>
        match split_at fold needle rest with
        | Some (before, after) => Some (String c before, after)
        | None => None
        end
    end.

Definition drop_final_newline (s : string) : string :=
  match String.rev s with
  | String c rest => if Ascii.eqb c (ascii_of_nat 10) then String.rev rest else s
  | EmptyString => s
  end.

(** Group 1 of the leftmost match of [opening\s*\n?([\s\S]*?)\n?```]. *)
Definition fenced (opening text : string) : option string :=
  match split_at ascii_lower_char opening text with
  | Some (_, after) =>
      match split_at (fun c => c) "```" (lstrip after) with
      | Some (inside, _) => Some (drop_final_newline inside)
      | None => None
      end
  | None => None
  end.

Definition fence_search (pattern text : string) : option string :=
  if String.eqb pattern "```json\s*\n?([\s\S]*?)\n?```" then fenced "```json" text
  else if String.eqb pattern "```\s*\n?([\s\S]*?)\n?```" then fenced "```" text
  else None.

(** [str(v)] of the values that the examples print. *)
Definition show (v : PyVal) : string :=
  match v with
  | PStr s => s
  | PInt z => pretty z
  | PBool b => if b then "True" else "False"
  | PNone => "None"
  | _ => "<" +:+ type_name v +:+ ">"
  end.

Definition table_loads (documents : list (string * PyVal)) (s : string) : M PyVal :=
  match list_find (fun d => String.eqb d.1 s = true) documents with
  | Some (_, d) => ret d.2
  | None => raise (Exn JSONDecodeError "Expecting value: line 1 column 1 (char 0)")
  end.

Definition ascii_runtime (documents : list (string * PyVal)) : PyRuntime :=
  {| str_lower := ascii_lower;
     str_strip := ascii_strip;
     str_slice_to := slice_to;
     format_1f := exact_format_1f;
     json_loads := table_loads documents;
     re_search := fence_search;
     set_to_list := remove_dups;
     py_str := show |}.

(** A world without network: every provider call raises. *)
Definition connection_error {A} : M A := raise (Exn OtherException "Connection error.").

Definition offline (now_ : datetime) : World :=
  {| now := now_;
     chat_completion := fun _ => connection_error;
     tavily_search := fun _ => connection_error;
     requests_post := fun _ => connection_error |}.

Definition no_env : Config :=
  {| DEEPSEEK_API_KEY := None; DEEPSEEK_BASE_URL := "https://api.deepseek.com";
     TAVILY_API_KEY := None; GLM_API_KEY := None |}.


(** A [WebSearcher] whose instance also carries the attribute [api_key]
    that [FactChecker] reads. *)
Definition with_api_key (api_key : PyVal) (ws : Searcher) : Searcher :=
  {| ws_class := ws_class ws;
     ws_attrs := <["api_key" := api_key]> (ws_attrs ws);
     ws_verify_fact := ws_verify_fact ws;
     ws_check_freshness_with_search := ws_check_freshness_with_search ws;
     ws_search_topic := ws_search_topic ws |}.

(** A searcher whose [verify_fact] answers with the given rounds, in order. *)
Definition scripted (api_key : PyVal) (rounds : list VerificationRound) (ws : Searcher) : Searcher :=
  {| ws_class := ws_class ws;
     ws_attrs := <["api_key" := api_key]> (ws_attrs ws);
     ws_verify_fact := fun i _ =>
       match rounds !! i with
       | Some r => ret r
       | None => connection_error
       end;
     ws_check_freshness_with_search := ws_check_freshness_with_search ws;
     ws_search_topic := ws_search_topic ws |}.

Definition with_searcher (ws : Searcher) (self : FactChecker) : FactChecker :=
  {| fc_api_key := fc_api_key self; fc_base_url := fc_base_url self;
     fc_client := fc_client self; fc_web_searcher := ws |}.

(** The runtime of the examples that decode no JSON. *)
Definition plain : PyRuntime := ascii_runtime [].

(** [FactChecker()] with no key in the environment. *)
Definition repository_checker : FactChecker :=
  @FactChecker_init plain no_env (offline 0) PNone PNone PNone.

(** The same checker, its searcher carrying [api_key = None]. *)
Definition keyed_checker : FactChecker :=
  with_searcher (with_api_key PNone (fc_web_searcher repository_checker)) repository_checker.

Definition true_round (confidence : Z) : VerificationRound :=
  {| vr_is_true := Some true; vr_confidence := NInt confidence;
     vr_reasoning := ""; vr_sources := []; vr_search_results := [] |}.


(** [ContentImprover("key")] *)
Definition keyed_improver : ContentImprover := ContentImprover_init no_env (PStr "key").

(** The scenario of the specification: a language model that answers the
    verification with true at 95 and the cross reference with consistent at
    90, in JSON. *)
Definition quoted (k : string) : string :=
  String (ascii_of_nat 34) k +:+ String (ascii_of_nat 34) "".

Definition truth_answer : string :=
  "{" +:+ quoted "is_true" +:+ ": true, " +:+ quoted "confidence" +:+ ": 95}".

Definition consistency_answer : string :=
  "{" +:+ quoted "is_consistent" +:+ ": true, " +:+ quoted "confidence" +:+ ": 90}".

Definition scenario_runtime : PyRuntime :=
  ascii_runtime
    [(truth_answer, dict [("is_true", PBool true); ("confidence", PInt 95)]);
     (consistency_answer, dict [("is_consistent", PBool true); ("confidence", PInt 90)])].

Definition answering (now_ : datetime) : World :=
  {| now := now_;
     chat_completion := fun request =>
       match cr_user request with
       | VerificationPrompt _ => ret truth_answer
       | CrossRefPrompt _ _ => ret consistency_answer
       | _ => connection_error
       end;
     tavily_search := fun _ => connection_error;
     requests_post := fun _ => connection_error |}.

(** [FactChecker("sk")], its searcher carrying [api_key = None]. *)
Definition scenario_checker : FactChecker :=
  let checker := @FactChecker_init scenario_runtime no_env (answering 0) (PStr "sk") PNone PNone in
  with_searcher (with_api_key PNone (fc_web_searcher checker)) checker.

(** ** Reading a verdict *)

(** The value stored under [k] in a dict. *)
Definition field (v : PyVal) (k : string) : option PyVal :=
  match v with
  | PDict d => d !! k
  | _ => None
  end.

Definition missing_api_key : exn :=
  Exn AttributeError "'WebSearcher' object has no attribute 'api_key'".

(** The step table of the time score as the specification gives it: the
    upper bound of each band, in hours, and its score; [10] past the last
    bound. *)
Definition step_table : list (float * Z) :=
  [(1%float, 100); (24%float, 95); (48%float, 85); (72%float, 70);
   (168%float, 50); (720%float, 30)].

Fixpoint step_score (table : list (float * Z)) (h : float) : Z :=
  match table with
  | [] => 10
  | (bound, score) :: rest => if (h <? bound)%float then score else step_score rest h
  end.

(** One hour, in microseconds. *)
Definition hour : Z := 3600 * 1000000.

Definition all_five : list string :=
  [truth_moderate; freshness_moderate; consistency_moderate; truth_severe; freshness_severe].

(** [when c s]: the suggestion [s] if the condition [c] holds. *)
Definition when (c : bool) (s : string) : list string := if c then [s] else [].

(** A score between 0 and 100. *)
Definition in_0_100 (n : Num) : Prop :=
  match n with
  | NInt z => 0 <= z <= 100
  | NFloat f => (0 <=? f)%float = true /\ (f <=? 100)%float = true
  end.

(** The float that a score contributes to a product. *)
Definition num_float (n : Num) : float :=
  match n with
  | NInt z => Zfloat z
  | NFloat f => f
  end.





(** The number of suggestions if every score below 70 brought one and
    every score below 50 one more. *)
Definition one_per_threshold (t f c : Num) : nat :=
  length (List.filter (fun n => num_ltb n 70) [t; f; c])
  + length (List.filter (fun n => num_ltb n 50) [t; f; c]).

(** The weighted sum of the specification. *)
Definition weighted (t f c : Num) : float :=
  (num_float t * 0.35 + num_float f * 0.45 + num_float c * 0.20)%float.

(** The blend of the specification without a search score. *)
Definition blend (t : TimeFreshness) (c : ContentFreshness) : float :=
  (Zfloat (time_score t) * 0.4 + Zfloat (cf_score c) * 0.6)%float.

(** The levels with which a report passes. *)
Definition passing_levels : list string := ["优秀"; "良好"; "达标"].

(** The rank of a quality level, from the worst to the best. *)
Definition level_rank (level : string) : nat :=
  if String.eqb level "优秀" then 5
  else if String.eqb level "良好" then 4
  else if String.eqb level "达标" then 3
  else if String.eqb level "一般" then 2
  else if String.eqb level "较差" then 1
  else 0.

(** The products [z * w] of the integer scores 0 to 100 with a weight. *)
Definition weighted_table (w : float) : list (Z * float) :=
  List.map (fun i => (Z.of_nat i, (Zfloat (Z.of_nat i) * w)%float)) (seq 0 101).

(** What holds of an overall score [x] computed from the truth [t] and the
    freshness [f]: it lies between 0 and 100, and it passes only if the
    freshness is at least 34 and the truth at least 15. *)
Definition within (t f : Z) (x : float) : bool :=
  (0 <=? x)%float && (x <=? 100)%float &&
  implb (70 <=? x)%float ((34 <=? f) && (15 <=? t)).

Definition all_within (ts fs cs : list (Z * float)) : bool :=
  forallb (fun ta => forallb (fun fb => forallb (fun cc =>
    within (fst ta) (fst fb) (snd ta + snd fb + snd cc)%float) cs) fs) ts.

(** The blend of a time score and a content score. *)
Definition blend_of (time content : Z) : float :=
  (Zfloat time * 0.4 + Zfloat content * 0.6)%float.

Definition time_scores : list Z := [100; 95; 85; 70; 50; 30; 10].

(** The items of the [output] of a response as [_make_glm_request] reads
    them: a message with its role and its texts, or the record of a web
    search. *)
Inductive OutputItem : Type :=
| Message (role : string) (texts : list string)
| WebSearchCall (query : string).

Definition output_text (t : string) : PyVal :=
  dict [("type", PStr "output_text"); ("text", PStr t)].

Definition item_value (item : OutputItem) : PyVal :=
  match item with
  | Message role texts =>
      dict [("type", PStr "message"); ("role", PStr role);
            ("content", PList (output_text <$> texts))]
  | WebSearchCall query =>
      dict [("type", PStr "web_search_call"); ("action", dict [("query", PStr query)])]
  end.

(** A response with status 200 whose body holds [output] only. *)
Definition glm_response (items : list OutputItem) : HttpResponse :=
  {| status_code := 200;
     text := "";
     json := ret (dict [("output", PList (item_value <$> items))]) |}.

Definition nonempty (t : string) : bool := negb (String.eqb t "").

(** The non-empty texts of the messages of the assistant, in their order. *)
Definition assistant_texts (item : OutputItem) : list string :=
  match item with
  | Message role texts =>
      if String.eqb role "assistant" then List.filter nonempty texts else []
  | WebSearchCall _ => []
  end.

(** The number behind the score that [comprehensive_check] reads from a
    verdict with [verdict.get(k, 0)]. *)
Definition score_of (verdict : PyVal) (k : string) : option Num :=
  match verdict with
  | PDict d => as_num (default (PInt 0) (d !! k))
  | _ => None
  end.

(** The need that [analyze_improvement_needs] adds for one score. *)
Definition severity (n : Num) (severe moderate : string) : list string :=
  if num_ltb n 50 then [severe] else if num_ltb n 70 then [moderate] else [].

Definition own_needs (t f c : Num) : list string :=
  (severity t truth_need_severe truth_need_moderate ++
   severity f freshness_need_severe freshness_need_moderate ++
   severity c consistency_need_severe consistency_need_moderate)%list.

Definition suggestions_for (t f c : Num) : list string :=
  improvement_suggestions_of (num_ltb t 70) (num_ltb f 70) (num_ltb c 70)
    (num_ltb t 50) (num_ltb f 50).

(** The note that [improve_content] writes for a score below 70. *)
Definition low_note {RT : PyRuntime} (n : Num) (before after : string) : list string :=
  if num_ltb n 70 then [before +:+ format_1f (num_float n) +:+ after] else [].

Definition low_notes {RT : PyRuntime} (t f c : Num) : list string :=
  (low_note t "真实性评分 " " 分过低，需要核实事实，添加可靠来源" ++
   low_note f "时效性评分 " " 分过低，需要更新内容，添加最新信息" ++
   low_note c "一致性评分 " " 分过低，需要检查内容逻辑，确保信息一致")%list.

(** What [improve_content] makes of the outcome of its request. *)
Definition improvement_of {RT : PyRuntime} (content : string) (answer : M string) : PyVal :=
  match answer with
  | inl e => improvement_failure content ("改进失败: " +:+ exn_msg e)
  | inr result_text =>
      match read_improvement content (clean_json_response result_text) with
      | inr v => v
      | inl e =>
          improvement_failure content
            ((if is_json_decode_error e then "解析失败: " else "改进失败: ") +:+ exn_msg e)
      end
  end.

(** A value that [improve_content] can log as the list of improvements:
    [len] and the loop over it succeed, and every item has [get]. *)
Definition loggable (improvements : PyVal) : Prop :=
  match improvements with
  | PList items => Forall (fun imp => exists d, imp = PDict d) items
  | PDict d => d = ∅
  | PStr s => s = ""
  | _ => False
  end.

(** ** [main.py]: what the pipeline reads of the search results *)

(** [f"{r['title']}: {r['summary'][:300]}"] of line 77. *)
Definition news_line {RT : PyRuntime} (r : PyVal) : M string :=
  title <- py_getitem r "title" ;;
  summary <- py_getitem r "summary" ;;
  excerpt <- py_slice_to 300 summary ;;
  ret (py_str title +:+ ": " +:+ py_str excerpt).

(** [news_summary_text] of line 77. *)
Definition news_summary_text {RT : PyRuntime} (search_results : list PyVal) : M string :=
  lines <- mapM news_line search_results ;;
  py_join newline (PStr <$> lines).

(** A value that can be sliced. *)
Definition sliceable (v : PyVal) : bool :=
  match v with
  | PStr _ | PList _ => true
  | _ => false
  end.

(** An entry of the list of [search_topic]: the five keys, a summary that
    can be sliced, and the fixed source. *)
Definition is_entry (v : PyVal) : Prop :=
  exists title summary link published,
    v = dict [("title", title); ("summary", summary); ("link", link);
              ("published", published); ("source", PStr "Tavily API")] /\
    sliceable summary = true.

Definition is_dict (v : PyVal) : bool :=
  match v with
  | PDict _ => true
  | _ => false
  end.

(** ** Closed inputs of the further instances *)

(** Three verdicts with truth 40, freshness 80 and consistency 90, and
    their report. *)
Definition truth_40 : PyVal := dict [("confidence", PInt 40)].
Definition freshness_80 : PyVal := dict [("score", PInt 80)].
Definition consistency_90 : PyVal := dict [("confidence", PInt 90)].

Definition sample_report : PyVal :=
  try_except (quality_report truth_40 freshness_80 consistency_90) (fun _ => PNone).

Definition sample_prompt : Prompt :=
  ImprovementPrompt "topic" "the draft" "71.0" "40.0" "80.0" "90.0" [].

(** A provider that answers every request with the given items. *)
Definition replying (items : list OutputItem) : World :=
  {| now := 0;
     chat_completion := fun _ => connection_error;
     tavily_search := fun _ => connection_error;
     requests_post := fun _ => ret (glm_response items) |}.

Definition sample_items : list OutputItem :=
  [WebSearchCall "query"; Message "assistant" ["first"; ""; "second"];
   Message "user" ["ignored"]].

(** An answer of the provider that decodes to an object with the improved
    content only. *)
Definition improved_answer : string :=
  "{" +:+ quoted "improved_content" +:+ ": " +:+ quoted "better" +:+ "}".

Definition improving_runtime : PyRuntime :=
  ascii_runtime [(improved_answer, dict [("improved_content", PStr "better")])].

(** A searcher with a key whose first round answers and whose second round
    raises. *)
Definition one_round_checker : FactChecker :=
  with_searcher
    (scripted (PStr "key") [true_round 90] (fc_web_searcher repository_checker))
    repository_checker.

(** A language model that answers every request with an empty JSON list. *)
Definition array_runtime : PyRuntime := ascii_runtime [("[]", PList [])].

Definition answering_list : World :=
  {| now := 0;
     chat_completion := fun _ => ret "[]";
     tavily_search := fun _ => connection_error;
     requests_post := fun _ => connection_error |}.

(** A Tavily key in the environment and a search that finds one result. *)
Definition tavily_env : Config :=
  {| DEEPSEEK_API_KEY := None; DEEPSEEK_BASE_URL := "https://api.deepseek.com";
     TAVILY_API_KEY := Some "tvly"; GLM_API_KEY := None |}.

Definition searching : World :=
  {| now := 0;
     chat_completion := fun _ => connection_error;
     tavily_search := fun _ =>
       ret (dict [("results", PList [dict [("title", PStr "T"); ("content", PStr "S")]])]);
     requests_post := fun _ => connection_error |}.

Definition found_entry : PyVal :=
  dict [("title", PStr "T"); ("summary", PStr "S"); ("link", PStr "");
        ("published", PStr ""); ("source", PStr "Tavily API")].

(** [FactChecker()] with that environment, its searcher carrying
    [api_key = "key"]. *)
Definition searching_checker : FactChecker :=
  let checker := @FactChecker_init plain tavily_env searching PNone PNone PNone in
  with_searcher (with_api_key (PStr "key") (fc_web_searcher checker)) checker.

(** ** The count of the specification *)

(** The occurrences of a keyword in a text, each position counted. *)
Fixpoint occurrences (needle hay : string) : nat :=
  (if String.prefix needle hay then 1 else 0) +
  match hay with
  | EmptyString => 0
  | String _ rest => occurrences needle rest
  end.

(** The count as the specification words it: the occurrences of the
    keywords in the lower-cased content, a keyword that occurs twice
    counting twice. *)
Definition occurrence_count {RT : PyRuntime} (content : string) : nat :=
  foldr (fun keyword total => occurrences keyword (str_lower content) + total)%nat 0%nat
    fresh_keywords.

(** No search score is available to [check_freshness]: the key of the
    searcher is false, or neither round is usable. *)
Definition without_search_score {RT : PyRuntime} (self : FactChecker)
    (topic content : string) (key : PyVal) : Prop :=
  truthy key = false \/
  collect_rounds
    (fun i => ws_check_freshness_with_search (fc_web_searcher self) i topic content)
    freshness_usable (seq 0 2) = ret [].

(** The entries of the keyword list as Python reads it, adjacent literals
    joined. *)
Definition keyword_entries : list string :=
  [ "最新"; "新版本"; "刚刚发布"; "今天发布"; "本月";
    "最近"; "新推出"; "正式发布"; "上线"; "发布";
    "v2.0"; "v3.0"; "v4.0"; "v5.0"; "v6.0";
    "2025"; "2026"; "2027"; "2028"; "2029"; "2030";
    "beta"; "alpha"; "rc"; "release"; "stable更新";
    "升级"; "新增"; "改进"; "优化"; "修复breaking news";
    "breaking"; "突发"; "重磅"; "重磅首次";
    "first"; "首个"; "第一"; "初次最新消息";
    "最新动态"; "最新进展"; "最新情况今天";
    "今日"; "现在"; "当前"; "正在" ].

(** * Properties *)

Section Properties.
Context {RT : PyRuntime}.

(** ** The attribute that [WebSearcher] does not have *)

Lemma WebSearcher_attrs_api_key cfg w k :
  ws_attrs (WebSearcher cfg w k) !! "api_key" = None.
Proof.
  unfold WebSearcher; simpl.
  rewrite !lookup_insert_ne by discriminate.
  apply lookup_empty.
Qed.

Lemma getattr_api_key_raises cfg w k :
  getattr (WebSearcher cfg w k) "api_key" = raise missing_api_key.
Proof.
  unfold getattr. rewrite WebSearcher_attrs_api_key. reflexivity.
Qed.

Lemma verify_claim_body_repository cfg w a b d claim :
  verify_claim_body (FactChecker_init cfg w a b d) w claim = raise missing_api_key.
Proof.
  unfold verify_claim_body, FactChecker_init; simpl.
  rewrite getattr_api_key_raises. reflexivity.
Qed.

Lemma check_freshness_body_repository cfg w a b d content topic timestamp :
  check_freshness_body (FactChecker_init cfg w a b d) w content topic timestamp
  = raise missing_api_key.
Proof.
  unfold check_freshness_body, FactChecker_init; simpl.
  rewrite getattr_api_key_raises. reflexivity.
Qed.

Lemma cross_reference_body_repository cfg w a b d topic content :
  cross_reference_body (FactChecker_init cfg w a b d) w topic content = raise missing_api_key.
Proof.
  unfold cross_reference_body, FactChecker_init; simpl.
  rewrite getattr_api_key_raises. reflexivity.
Qed.

Lemma verify_claim_repository cfg w a b d claim :
  verify_claim (FactChecker_init cfg w a b d) w claim = claim_error_verdict missing_api_key.
Proof. unfold verify_claim. now rewrite verify_claim_body_repository. Qed.

Lemma check_freshness_repository cfg w a b d content topic timestamp :
  check_freshness (FactChecker_init cfg w a b d) w content topic timestamp
  = freshness_error_verdict missing_api_key.
Proof. unfold check_freshness. now rewrite check_freshness_body_repository. Qed.

Lemma cross_reference_repository cfg w a b d topic content :
  cross_reference (FactChecker_init cfg w a b d) w topic content
  = cross_ref_error_verdict missing_api_key.
Proof. unfold cross_reference. now rewrite cross_reference_body_repository. Qed.

(** C2. Whatever the topic, the content, the timestamp and the configured
    keys, each of the three checks of a [FactChecker] built by its
    constructor raises [AttributeError] on [self.web_searcher.api_key] and
    returns the verdict of its [except] branch; [comprehensive_check] then
    returns the overall score [0.0], [is_pass = False], the quality level
    ["很差"] and all five improvement suggestions. *)
Theorem comprehensive_check_repository_is_constant :
  forall (cfg : Config) (w : World) (api_key base_url doubao_api_key : PyVal)
         (topic content : string) (timestamp : option datetime),
    let self := FactChecker_init cfg w api_key base_url doubao_api_key in
    verify_claim_body self w content = raise missing_api_key /\
    check_freshness_body self w content topic timestamp = raise missing_api_key /\
    cross_reference_body self w topic content = raise missing_api_key /\
    exists report,
      comprehensive_check self w topic content timestamp = ret report /\
      field report "overall_score" = Some (PFloat 0) /\
      field report "is_pass" = Some (PBool false) /\
      field report "quality_level" = Some (PStr "很差") /\
      field report "improvement_suggestions" = Some (PList (PStr <$> all_five)).
Proof.
  intros cfg w a b d topic content timestamp self. subst self.
  split; [apply verify_claim_body_repository |].
  split; [apply check_freshness_body_repository |].
  split; [apply cross_reference_body_repository |].
  unfold comprehensive_check.
  rewrite verify_claim_repository, check_freshness_repository, cross_reference_repository.
  eexists. split; [vm_compute; reflexivity |].
  repeat split; vm_compute; reflexivity.
Qed.

(** ** The error monad *)

Lemma bind_ret_inv {A B} (m : M A) (k : A -> M B) (b : B) :
  bind m k = ret b -> exists a, m = ret a /\ k a = ret b.
Proof. destruct m as [e | a]; simpl; [discriminate | eauto]. Qed.

Ltac bind_inv H :=
  let a := fresh "a" in
  let Ha := fresh "H" a in
  apply bind_ret_inv in H; destruct H as (a & Ha & H).

Lemma field_py_get v k x dflt : field v k = Some x -> py_get v k dflt = ret x.
Proof. destruct v; simpl; try discriminate. now intros ->. Qed.

(** ** Small ints convert to floats *)

#[local] Arguments float_of_int : simpl never.
#[local] Arguments int_truediv : simpl never.
#[local] Arguments Zfloat : simpl never.
#[local] Arguments round_quotient : simpl never.

Lemma upto_cases (P : Z -> bool) (n : nat) :
  forallb (fun i => P (Z.of_nat i)) (seq 0 (S n)) = true ->
  forall z, 0 <= z <= Z.of_nat n -> P z = true.
Proof.
  intros Hall z Hz.
  rewrite forallb_forall in Hall.
  rewrite <- (Z2Nat.id z) by lia.
  apply Hall, in_seq. lia.
Qed.

Lemma float_of_int_small z : 0 <= z <= 200 -> float_of_int z = ret (Zfloat z).
Proof.
  intros Hz. unfold float_of_int.
  assert (negb (is_infinity (Zfloat z)) = true) as H.
  { apply (upto_cases (fun z => negb (is_infinity (Zfloat z))) 200); [| lia].
    vm_compute. reflexivity. }
  apply negb_true_iff in H. now rewrite H.
Qed.


(** ** The time score *)

Lemma time_band_step age : (time_band age).2 = step_score step_table age.
Proof.
  unfold time_band, step_table, step_score.
  repeat match goal with |- context [if ?c then _ else _] => destruct c; try reflexivity end.
Qed.

Lemma time_score_range w timestamp : 0 <= time_score (time_part w timestamp) <= 100.
Proof.
  destruct timestamp as [ts |]; simpl; [| lia].
  unfold time_band.
  repeat match goal with |- context [if ?c then _ else _] => destruct c; simpl; try lia end.
Qed.

Lemma cf_score_range content topic : 0 <= cf_score (_analyze_content_freshness content topic) <= 100.
Proof.
  unfold _analyze_content_freshness.
  repeat match goal with |- context [if ?c then _ else _] => destruct c; simpl; try lia end.
Qed.

Lemma web_freshness_verdict_time_score t c rs v :
  web_freshness_verdict t c rs = ret v -> field v "time_score" = Some (PInt (time_score t)).
Proof.
  unfold web_freshness_verdict. intros H.
  do 4 bind_inv H. injection H as <-. reflexivity.
Qed.

Lemma hybrid_verdict_time_score t c v :
  hybrid_verdict t c = ret v -> field v "time_score" = Some (PInt (time_score t)).
Proof.
  unfold hybrid_verdict. intros H.
  do 2 bind_inv H. injection H as <-. reflexivity.
Qed.

Lemma check_freshness_body_time_score self w content topic timestamp verdict :
  check_freshness_body self w content topic timestamp = ret verdict ->
  field verdict "time_score" = Some (PInt (time_score (time_part w timestamp))).
Proof.
  intros H. unfold check_freshness_body in H.
  bind_inv H. bind_inv H.
  destruct a0 as [v |].
  - injection H as <-.
    destruct (truthy a); [| discriminate].
    bind_inv Ha0.
    destruct a0; [discriminate |].
    bind_inv Ha0. injection Ha0 as <-.
    eapply web_freshness_verdict_time_score; eauto.
  - eapply hybrid_verdict_time_score; eauto.
Qed.

(** ** The freshness check *)

(** The blend without a search score, for a searcher that has the
    attribute: the key is empty, or no round is usable. *)
Lemma check_freshness_without_search self w content topic timestamp key :
  getattr (fc_web_searcher self) "api_key" = ret key ->
  (truthy key = false \/
   collect_rounds
     (fun i => ws_check_freshness_with_search (fc_web_searcher self) i topic content)
     freshness_usable (seq 0 2) = ret []) ->
  let t := time_part w timestamp in
  let c := _analyze_content_freshness content topic in
  let verdict := check_freshness self w content topic timestamp in
  field verdict "score" = Some (PFloat (blend t c)) /\
  field verdict "is_fresh" = Some (PBool (hybrid_tier (blend t c)).1) /\
  field verdict "freshness_level" = Some (PStr (hybrid_tier (blend t c)).2) /\
  field verdict "method" = Some (PStr "hybrid").
Proof.
  intros Hkey Hno t c verdict.
  assert (check_freshness_body self w content topic timestamp = hybrid_verdict t c) as Hbody.
  { unfold check_freshness_body. rewrite Hkey. cbn [bind ret].
    destruct (truthy key); [| reflexivity].
    destruct Hno as [Hno | Hno]; [discriminate |].
    rewrite Hno. reflexivity. }
  subst verdict. unfold check_freshness. rewrite Hbody.
  unfold hybrid_verdict.
  rewrite (float_of_int_small (time_score t))
    by (pose proof (time_score_range w timestamp); subst t; lia).
  rewrite (float_of_int_small (cf_score c))
    by (pose proof (cf_score_range content topic); subst c; lia).
  simpl. repeat split; reflexivity.
Qed.

(** The two deprecated methods of [WebSearcher] answer with the confidence
    and the score 0, so none of their rounds is usable. *)
Lemma deprecated_rounds_are_unusable cfg w k claim topic content :
  collect_rounds (fun i => ws_verify_fact (WebSearcher cfg w k) i claim)
    claim_usable (seq 0 2) = ret [] /\
  collect_rounds
    (fun i => ws_check_freshness_with_search (WebSearcher cfg w k) i topic content)
    freshness_usable (seq 0 2) = ret [].
Proof. split; reflexivity. Qed.

(** Had [WebSearcher] the attribute, with whatever value, [check_freshness]
    would return the blend on every input. *)
Lemma check_freshness_once_keyed cfg w a b d key content topic timestamp :
  let checker := FactChecker_init cfg w a b d in
  let self := with_searcher (with_api_key key (fc_web_searcher checker)) checker in
  let t := time_part w timestamp in
  let c := _analyze_content_freshness content topic in
  let verdict := check_freshness self w content topic timestamp in
  field verdict "score" = Some (PFloat (blend t c)) /\
  field verdict "is_fresh" = Some (PBool (hybrid_tier (blend t c)).1) /\
  field verdict "freshness_level" = Some (PStr (hybrid_tier (blend t c)).2) /\
  field verdict "method" = Some (PStr "hybrid").
Proof.
  intros checker self t c verdict.
  apply (check_freshness_without_search self w content topic timestamp key).
  - unfold getattr, self, with_searcher, with_api_key; simpl.
    now rewrite lookup_insert_eq.
  - right. exact (proj2 (deprecated_rounds_are_unusable cfg w d "" topic content)).
Qed.

(** The tiers of the blend, read off [hybrid_tier]. *)
Lemma hybrid_tier_bands final :
  ((80 <=? final)%float = true -> hybrid_tier final = (true, "最新")) /\
  ((80 <=? final)%float = false -> (60 <=? final)%float = true ->
   hybrid_tier final = (true, "较新")) /\
  ((80 <=? final)%float = false -> (60 <=? final)%float = false ->
   (40 <=? final)%float = true -> hybrid_tier final = (false, "一般")) /\
  ((80 <=? final)%float = false -> (60 <=? final)%float = false ->
   (40 <=? final)%float = false -> hybrid_tier final = (false, "过时")).
Proof.
  unfold hybrid_tier. repeat split; intros; repeat
    match goal with H : _ = _ |- _ => rewrite H; clear H end; reflexivity.
Qed.

(** C3 (not what the code does).  The specification lets [check_freshness]
    blend the time score and the content score whenever no search score is
    available.  A [FactChecker] built by its constructor never gets there:
    the read of [self.web_searcher.api_key] raises after both scores are
    computed, and the verdict is that of the [except] branch, with score
    [0], freshness unknown and level ["未知"], for every content, topic
    and timestamp. *)
Theorem check_freshness_repository_error :
  forall (cfg : Config) (w : World) (api_key base_url doubao_api_key : PyVal)
         (content topic : string) (timestamp : option datetime),
    let self := FactChecker_init cfg w api_key base_url doubao_api_key in
    let verdict := check_freshness self w content topic timestamp in
    verdict = freshness_error_verdict missing_api_key /\
    field verdict "score" = Some (PInt 0) /\
    field verdict "is_fresh" = Some PNone /\
    field verdict "freshness_level" = Some (PStr "未知") /\
    field verdict "time_score" = Some (PInt 0).
Proof.
  intros. subst verdict self. rewrite check_freshness_repository.
  repeat split; reflexivity.
Qed.

(** C4 (not what the code does).  Lines 250 to 279 compute the time score
    as the step function of the elapsed hours [h]: 100 below 1, 95 below
    24, 85 below 48, 70 below 72, 50 below 168, 30 below 720 and 10 from
    there on, each bound belonging to the band above it ([h = 24] and
    [h = 24.001] give 85), and 50 without a timestamp; a checker whose
    searcher has the attribute [api_key] returns that score under
    ["time_score"].  A [FactChecker] built by its constructor does not: the
    read of [self.web_searcher.api_key] raises after the score is computed
    and the verdict of the [except] branch has the time score 0, which is
    no value of the step function, for every content, topic and
    timestamp. *)
Theorem time_score_repository_error :
  (forall (w : World) (timestamp : datetime),
      time_score (time_part w (Some timestamp))
      = step_score step_table (age_hours w timestamp)) /\
  (forall w : World, time_score (time_part w None) = 50) /\
  (forall now_ : datetime,
      let score elapsed :=
        time_score (time_part (offline now_) (Some (now_ - elapsed))) in
      score (hour - 1) = 100 /\ score hour = 95 /\
      score (24 * hour - 1) = 95 /\ score (24 * hour) = 85 /\
      score (24 * hour + hour / 1000) = 85 /\
      score (48 * hour - 1) = 85 /\ score (48 * hour) = 70 /\
      score (72 * hour - 1) = 70 /\ score (72 * hour) = 50 /\
      score (168 * hour - 1) = 50 /\ score (168 * hour) = 30 /\
      score (720 * hour - 1) = 30 /\ score (720 * hour) = 10) /\
  (forall (cfg : Config) (w : World) (api_key base_url doubao_api_key key : PyVal)
          (content topic : string) (timestamp : option datetime),
      let checker := FactChecker_init cfg w api_key base_url doubao_api_key in
      let self := with_searcher (with_api_key key (fc_web_searcher checker)) checker in
      field (check_freshness self w content topic timestamp) "time_score"
      = Some (PInt (time_score (time_part w timestamp)))) /\
  (forall (cfg : Config) (w : World) (api_key base_url doubao_api_key : PyVal)
          (content topic : string) (timestamp : option datetime),
      let self := FactChecker_init cfg w api_key base_url doubao_api_key in
      field (check_freshness self w content topic timestamp) "time_score" = Some (PInt 0) /\
      time_score (time_part w timestamp) <> 0 /\
      10 <= time_score (time_part w timestamp)).
Proof.
  split; [| split; [| split; [| split]]].
  - intros w ts. simpl. apply time_band_step.
  - reflexivity.
  - intros now_ score. subst score. cbv beta.
    unfold time_part, age_hours. cbn [now offline time_score].
    repeat match goal with
           | |- context [now_ - (now_ - ?e)] => replace (now_ - (now_ - e)) with e by lia
           end.
    repeat split; vm_compute; reflexivity.
  - intros cfg w a b d key content topic timestamp checker self.
    destruct (check_freshness_once_keyed cfg w a b d key content topic timestamp)
      as (Hscore & _).
    fold checker self in Hscore. unfold check_freshness in *.
    destruct (check_freshness_body self w content topic timestamp) as [e | v] eqn:Hbody.
    + discriminate Hscore.
    + cbn [try_except]. exact (check_freshness_body_time_score _ _ _ _ _ _ Hbody).
  - intros cfg w a b d content topic timestamp self. subst self.
    rewrite check_freshness_repository.
    assert (10 <= time_score (time_part w timestamp)) as Hten.
    { destruct timestamp as [ts |]; simpl; [| lia].
      unfold time_band.
      repeat match goal with
             | |- context [if ?c then _ else _] => destruct c; simpl; try lia
             end. }
    split; [reflexivity |]. split; [lia | exact Hten].
Qed.

(** ** The report *)

Lemma py_mul_float_score n x :
  in_0_100 n -> py_mul_float (of_num n) x = ret (num_float n * x)%float.
Proof.
  destruct n as [z | f]; simpl; intros Hn; [| reflexivity].
  unfold py_mul_float; simpl. rewrite float_of_int_small by lia. reflexivity.
Qed.

Lemma py_lt_int_score n k : py_lt_int (of_num n) k = ret (num_ltb n k).
Proof. destruct n; reflexivity. Qed.

Lemma improvement_suggestions_split t70 f70 c70 t50 f50 :
  improvement_suggestions_of t70 f70 c70 t50 f50
  = ((when t70 truth_moderate ++ when f70 freshness_moderate ++ when c70 consistency_moderate)
     ++ (when t50 truth_severe ++ when f50 freshness_severe))%list.
Proof. destruct t70, f70, c70, t50, f50; reflexivity. Qed.

(** The report of three verdicts whose scores are numbers between 0 and
    100. *)
Lemma quality_report_of_scores truth_check freshness_check consistency_check t f c :
  field truth_check "confidence" = Some (of_num t) ->
  field freshness_check "score" = Some (of_num f) ->
  field consistency_check "confidence" = Some (of_num c) ->
  in_0_100 t -> in_0_100 f -> in_0_100 c ->
  exists report,
    quality_report truth_check freshness_check consistency_check = ret report /\
    field report "overall_score" = Some (PFloat (weighted t f c)) /\
    field report "is_pass" = Some (PBool (70 <=? weighted t f c)%float) /\
    field report "quality_level" = Some (PStr (quality_band (weighted t f c)).2) /\
    field report "improvement_suggestions"
    = Some (PList (PStr <$> improvement_suggestions_of
                     (num_ltb t 70) (num_ltb f 70) (num_ltb c 70)
                     (num_ltb t 50) (num_ltb f 50))).
Proof.
  intros Ht Hf Hc Rt Rf Rc. unfold quality_report.
  rewrite (field_py_get _ _ _ _ Ht), (field_py_get _ _ _ _ Hf), (field_py_get _ _ _ _ Hc).
  cbn [bind ret].
  rewrite !py_mul_float_score by assumption. cbn [bind ret].
  rewrite !py_lt_int_score. cbn [bind ret].
  eexists. split; [reflexivity |].
  repeat split; reflexivity.
Qed.

(** C1. The overall score of [comprehensive_check] is
    [truth * 0.35 + freshness * 0.45 + consistency * 0.20], where the three
    scores are the ["confidence"], ["score"] and ["confidence"] of the
    three verdicts, each between 0 and 100; the three weights add up to
    [1.0]; and [is_pass] is the test [overall_score >= 70]. *)
Theorem comprehensive_check_weighted_score :
  forall (self : FactChecker) (w : World) (topic content : string)
         (timestamp : option datetime) (t f c : Num),
    field (verify_claim self w content) "confidence" = Some (of_num t) ->
    field (check_freshness self w content topic timestamp) "score" = Some (of_num f) ->
    field (cross_reference self w topic content) "confidence" = Some (of_num c) ->
    in_0_100 t -> in_0_100 f -> in_0_100 c ->
    exists report,
      comprehensive_check self w topic content timestamp = ret report /\
      field report "overall_score"
      = Some (PFloat (num_float t * 0.35 + num_float f * 0.45 + num_float c * 0.20)%float) /\
      field report "is_pass"
      = Some (PBool (70 <=? num_float t * 0.35 + num_float f * 0.45 + num_float c * 0.20)%float) /\
      (0.35 + 0.45 + 0.20 = 1)%float.
Proof.
  intros self w topic content timestamp t f c Ht Hf Hc Rt Rf Rc.
  destruct (quality_report_of_scores _ _ _ t f c Ht Hf Hc Rt Rf Rc)
    as (report & Hrun & Hoverall & Hpass & _).
  exists report. unfold comprehensive_check.
  repeat split; try assumption.
Qed.

(** C8 (amended).  The suggestions of a report are, in this order: one
    suggestion for each of truth, freshness and consistency that is below
    70, then one warning for each of truth and freshness that is below 50;
    a consistency score below 50 brings no warning.  Truth 40, freshness 80
    and consistency 90 give the truth suggestion followed by the truth
    warning, and nothing else. *)
Theorem improvement_suggestions_ordered :
  (forall (self : FactChecker) (w : World) (topic content : string)
          (timestamp : option datetime) (t f c : Num),
      field (verify_claim self w content) "confidence" = Some (of_num t) ->
      field (check_freshness self w content topic timestamp) "score" = Some (of_num f) ->
      field (cross_reference self w topic content) "confidence" = Some (of_num c) ->
      in_0_100 t -> in_0_100 f -> in_0_100 c ->
      exists report,
        comprehensive_check self w topic content timestamp = ret report /\
        field report "improvement_suggestions"
        = Some (PList (PStr <$>
                  ((when (num_ltb t 70) truth_moderate ++
                    when (num_ltb f 70) freshness_moderate ++
                    when (num_ltb c 70) consistency_moderate) ++
                   (when (num_ltb t 50) truth_severe ++
                    when (num_ltb f 50) freshness_severe))%list))) /\
  (forall truth_check freshness_check consistency_check : PyVal,
      field truth_check "confidence" = Some (PInt 40) ->
      field freshness_check "score" = Some (PInt 80) ->
      field consistency_check "confidence" = Some (PInt 90) ->
      exists report,
        quality_report truth_check freshness_check consistency_check = ret report /\
        field report "improvement_suggestions"
        = Some (PList [PStr truth_moderate; PStr truth_severe])).
Proof.
  split.
  - intros self w topic content timestamp t f c Ht Hf Hc Rt Rf Rc.
    destruct (quality_report_of_scores _ _ _ t f c Ht Hf Hc Rt Rf Rc)
      as (report & Hrun & _ & _ & _ & Hsuggestions).
    exists report. split; [exact Hrun |].
    rewrite Hsuggestions, improvement_suggestions_split. reflexivity.
  - intros tc fc cc Ht Hf Hc.
    destruct (quality_report_of_scores tc fc cc (NInt 40) (NInt 80) (NInt 90) Ht Hf Hc)
      as (report & Hrun & _ & _ & _ & Hsuggestions); simpl; try lia.
    exists report. split; [exact Hrun |].
    rewrite Hsuggestions. reflexivity.
Qed.

(** ** The consensus of the verification rounds *)









(** ** The content score *)

Lemma filter_bool_length {A} (f : A -> bool) (l : list A) :
  length (filter (fun x => Is_true (f x)) l) = length (List.filter f l).
Proof.
  induction l as [| x l IH]; [reflexivity |].
  rewrite filter_cons. cbn [List.filter].
  destruct (decide (Is_true (f x))) as [H | H].
  - apply Is_true_eq_true in H. rewrite H. cbn [length]. now rewrite IH.
  - destruct (f x); [exfalso; apply H; exact I | exact IH].
Qed.

Lemma str_in_occurs needle hay : str_in needle hay = true -> (1 <= occurrences needle hay)%nat.
Proof.
  induction hay as [| c hay IH]; cbn [str_in occurrences].
  - rewrite orb_false_r. intros ->. lia.
  - destruct (String.prefix needle (String c hay)); [lia |].
    cbn [orb]. intros H. specialize (IH H). lia.
Qed.

Lemma found_le_occurrences (s : string) (keywords : list string) :
  (length (List.filter (fun keyword => str_in keyword s) keywords)
   <= foldr (fun keyword total => occurrences keyword s + total) 0 keywords)%nat.
Proof.
  induction keywords as [| k keywords IH]; [reflexivity |].
  cbn [List.filter foldr].
  destruct (str_in k s) eqn:Hk; [| lia].
  pose proof (str_in_occurs k s Hk). cbn [length]. lia.
Qed.

(** C6 (amended).  The content score counts the entries of the fixed list
    that occur in the lower-cased content, an entry counting once however
    often it occurs: the count is at most 46, the length of the list, and
    never more than the number of occurrences.  Where a line of the list
    ends without a comma two literals make one entry: ["stable更新"] is an
    entry, ["stable"] is not; the entries are those of [keyword_entries].  The score is 95, fresh and ["最新"] from
    three entries on, 85, fresh and ["较新"] for one or two, and 50, not
    fresh, for none.  Two contents with the same lower case get the same
    analysis. *)
Theorem content_freshness_counts_listed_keywords :
  forall content topic : string,
    let found :=
      List.filter (fun keyword => str_in keyword (str_lower content)) fresh_keywords in
    let r := _analyze_content_freshness content topic in
    (fresh_count content = length found /\
     (length found <= 46)%nat /\
     (length found <= occurrence_count content)%nat) /\
    (fresh_keywords = keyword_entries /\
     length fresh_keywords = 46%nat /\
     existsb (String.eqb "beta") fresh_keywords = true /\
     existsb (String.eqb ("stable" +:+ "更新")) fresh_keywords = true /\
     existsb (String.eqb "stable") fresh_keywords = false) /\
    ((3 <= length found)%nat ->
     cf_score r = 95 /\ cf_is_fresh r = true /\ cf_freshness_level r = "最新") /\
    ((1 <= length found < 3)%nat ->
     cf_score r = 85 /\ cf_is_fresh r = true /\ cf_freshness_level r = "较新") /\
    (length found = 0%nat -> cf_score r = 50 /\ cf_is_fresh r = false) /\
    (forall other : string,
        str_lower other = str_lower content ->
        _analyze_content_freshness other topic = r).
Proof.
  intros content topic found r.
  assert (fresh_count content = length found) as Hcount.
  { unfold fresh_count, found. apply filter_bool_length. }
  split; [| split].
  - split; [exact Hcount |]. split.
    + unfold found. etransitivity; [apply List.filter_length_le |]. reflexivity.
    + unfold found, occurrence_count. apply found_le_occurrences.
  - repeat split; vm_compute; reflexivity.
  - assert (forall other : string,
               str_lower other = str_lower content ->
               _analyze_content_freshness other topic = r) as Hother.
    { intros other Hlower. subst r. unfold _analyze_content_freshness, fresh_count.
      rewrite Hlower. reflexivity. }
    rewrite <- Hcount. subst r. unfold _analyze_content_freshness in *.
    revert Hother. generalize (fresh_count content) as n. intros n Hother.
    split; [| split; [| split]].
    + intros H. destruct (Nat.leb_spec 3 n); [repeat split | lia].
    + intros H. destruct (Nat.leb_spec 3 n); [lia |].
      destruct (Nat.leb_spec 1 n); [repeat split | lia].
    + intros H. destruct (Nat.leb_spec 3 n); [lia |].
      destruct (Nat.leb_spec 1 n); [lia | repeat split].
    + exact Hother.
Qed.

(** ** Failures of the providers *)

Lemma weighted_zero : weighted (NInt 0) (NInt 0) (NInt 0) = 0%float.
Proof. vm_compute. reflexivity. Qed.

(** C7. Each of the three checks returns a verdict whatever happens in its
    [try] block: an exception there becomes the verdict of the [except]
    branch, with the truth, the freshness or the consistency unknown and the
    confidence or score [0].  When all three fail, [comprehensive_check]
    still returns a report, with the overall score [0.0]; and for a
    [FactChecker] built by its constructor it returns a report on every
    input. *)
Theorem provider_failures_become_verdicts :
  (forall (self : FactChecker) (w : World) (claim : string) (e : exn),
      verify_claim_body self w claim = raise e ->
      let verdict := verify_claim self w claim in
      field verdict "is_true" = Some PNone /\ field verdict "confidence" = Some (PInt 0)) /\
  (forall (self : FactChecker) (w : World) (content topic : string)
          (timestamp : option datetime) (e : exn),
      check_freshness_body self w content topic timestamp = raise e ->
      let verdict := check_freshness self w content topic timestamp in
      field verdict "is_fresh" = Some PNone /\ field verdict "score" = Some (PInt 0)) /\
  (forall (self : FactChecker) (w : World) (topic content : string) (e : exn),
      cross_reference_body self w topic content = raise e ->
      let verdict := cross_reference self w topic content in
      field verdict "is_consistent" = Some PNone /\
      field verdict "confidence" = Some (PInt 0)) /\
  (forall (self : FactChecker) (w : World) (topic content : string)
          (timestamp : option datetime),
      raises (verify_claim_body self w content) ->
      raises (check_freshness_body self w content topic timestamp) ->
      raises (cross_reference_body self w topic content) ->
      exists report,
        comprehensive_check self w topic content timestamp = ret report /\
        field report "overall_score" = Some (PFloat 0) /\
        field report "is_pass" = Some (PBool false)) /\
  (forall (cfg : Config) (w : World) (api_key base_url doubao_api_key : PyVal)
          (topic content : string) (timestamp : option datetime),
      exists report,
        comprehensive_check (FactChecker_init cfg w api_key base_url doubao_api_key)
          w topic content timestamp = ret report).
Proof.
  assert (forall self w topic content timestamp,
             raises (verify_claim_body self w content) ->
             raises (check_freshness_body self w content topic timestamp) ->
             raises (cross_reference_body self w topic content) ->
             exists report,
               comprehensive_check self w topic content timestamp = ret report /\
               field report "overall_score" = Some (PFloat 0) /\
               field report "is_pass" = Some (PBool false)) as Hall.
  { intros self w topic content timestamp [e1 H1] [e2 H2] [e3 H3].
    unfold comprehensive_check, verify_claim, check_freshness, cross_reference.
    rewrite H1, H2, H3. cbn [try_except raise].
    destruct (quality_report_of_scores
                (claim_error_verdict e1) (freshness_error_verdict e2)
                (cross_ref_error_verdict e3) (NInt 0) (NInt 0) (NInt 0))
      as (report & Hrun & Hoverall & Hpass & _); try reflexivity; simpl; try lia.
    rewrite weighted_zero in Hoverall, Hpass.
    exists report. repeat split; assumption. }
  split; [| split; [| split; [| split]]].
  - intros self w claim e H verdict. subst verdict. unfold verify_claim.
    rewrite H. split; reflexivity.
  - intros self w content topic timestamp e H verdict. subst verdict.
    unfold check_freshness. rewrite H. split; reflexivity.
  - intros self w topic content e H verdict. subst verdict. unfold cross_reference.
    rewrite H. split; reflexivity.
  - exact Hall.
  - intros cfg w a b d topic content timestamp.
    destruct (Hall (FactChecker_init cfg w a b d) w topic content timestamp)
      as (report & Hrun & _).
    + eexists. apply verify_claim_body_repository.
    + eexists. apply check_freshness_body_repository.
    + eexists. apply cross_reference_body_repository.
    + eauto.
Qed.

(** ** The parsers *)

(** C9 (amended).  On a response that [json.loads] rejects, the parser of
    the claim verification returns the verdict with confidence 50, truth
    unknown and the response itself as reasoning, and the parser of the
    cross reference the verdict with confidence 50, consistency unknown and
    the response itself as additional context.  A response that
    [json.loads] decodes is returned as decoded, whatever its shape: a
    list, a number or [null] is returned as the verdict, without a
    confidence.  Neither parser raises. *)
Theorem parsers_fall_back_on_decode_errors_only :
  forall text : string,
    let truth := _parse_verification_result text in
    let consistency := _parse_cross_ref_result text in
    (raises (json_loads text) ->
     truth = dict [("is_true", PNone); ("confidence", PInt 50); ("reasoning", PStr text);
                   ("sources", PList []); ("method", PStr "none")] /\
     consistency = dict [("is_consistent", PNone); ("confidence", PInt 50);
                         ("known_facts", PList []); ("contradictions", PList []);
                         ("additional_context", PStr text); ("reasoning", PStr "");
                         ("method", PStr "none")] /\
     (field truth "confidence" = Some (PInt 50) /\
      field truth "is_true" = Some PNone /\
      field truth "reasoning" = Some (PStr text)) /\
     (field consistency "confidence" = Some (PInt 50) /\
      field consistency "is_consistent" = Some PNone /\
      field consistency "additional_context" = Some (PStr text))) /\
    (forall decoded : PyVal,
        json_loads text = ret decoded ->
        truth = decoded /\ consistency = decoded /\
        (is_dict decoded = false ->
         field truth "confidence" = None /\ field consistency "confidence" = None)).
Proof.
  intros text truth consistency. subst truth consistency.
  unfold _parse_verification_result, _parse_cross_ref_result.
  split.
  - intros [e He]. rewrite He. repeat split; reflexivity.
  - intros decoded Hdecoded. rewrite Hdecoded. cbn [try_except ret].
    split; [reflexivity |]. split; [reflexivity |].
    intros Hshape. destruct decoded; try discriminate; split; reflexivity.
Qed.

Lemma parsers_return_decoded text v :
  json_loads text = ret v ->
  _parse_verification_result text = v /\ _parse_cross_ref_result text = v.
Proof.
  intros H. unfold _parse_verification_result, _parse_cross_ref_result.
  rewrite H. split; reflexivity.
Qed.

(** ** The improver *)



(** The two outcomes of [improve_content]: one of the three failure
    returns, which all carry the content, or the dict built from a decoded
    response. *)
Lemma improve_content_outcome self w topic content check_result :
  (exists reasoning,
      improve_content self w topic content check_result
      = improvement_failure content reasoning) \/
  (exists prompt result_text v,
      _make_glm_request self w prompt (Some improvement_system_prompt) true 3000
      = ret result_text /\
      read_improvement content (clean_json_response result_text) = ret v /\
      improve_content self w topic content check_result = v).
Proof.
  unfold improve_content.
  destruct (truthy (ci_api_key self)); cbn [negb]; [| left; eauto].
  unfold improve_content_body.
  repeat match goal with
         | |- context [try_except (bind ?m _) _] =>
             destruct m as [? | ?] eqn:?; cbn [bind try_except]; [left; eauto |]
         end.
  match goal with
  | |- context [read_improvement ?c ?t] =>
      destruct (read_improvement c t) as [e | v] eqn:Hread
  end.
  - left. destruct (is_json_decode_error e); cbn [try_except ret raise]; eauto.
  - right. cbn [try_except ret]. eauto 6.
Qed.


End Properties.

(** * Closed instances *)

Lemma comprehensive_check_weighted_score_witness :
  exists report,
    @comprehensive_check plain keyed_checker (offline 0) "topic" "BETA release of v2.0" None
    = ret report /\
    field report "overall_score" = Some (PFloat (0 * 0.35 + 77 * 0.45 + 0 * 0.20)%float) /\
    field report "is_pass" = Some (PBool (70 <=? 0 * 0.35 + 77 * 0.45 + 0 * 0.20)%float) /\
    (0.35 + 0.45 + 0.20 = 1)%float.
Proof.
  apply (@comprehensive_check_weighted_score plain keyed_checker (offline 0)
           "topic" "BETA release of v2.0" None (NInt 0) (NFloat 77) (NInt 0)).
  - vm_compute. reflexivity.
  - vm_compute. reflexivity.
  - vm_compute. reflexivity.
  - simpl. lia.
  - simpl. split; vm_compute; reflexivity.
  - simpl. lia.
Defined.



(** The keyword [beta] occurs three times in the content, which counting
    occurrences scores 95; the code counts the entry once and scores 85. *)
Lemma repeated_keyword_counts_once :
  @occurrence_count plain "beta beta beta" = 3%nat /\
  @fresh_count plain "beta beta beta" = 1%nat /\
  cf_score (@_analyze_content_freshness plain "beta beta beta" "topic") = 85 /\
  cf_freshness_level (@_analyze_content_freshness plain "beta beta beta" "topic") = "较新".
Proof. repeat split; vm_compute; reflexivity. Qed.

Lemma content_freshness_counts_listed_keywords_witness :
  (3 <= length (List.filter
                  (fun keyword => str_in keyword (@str_lower plain "BETA release of v2.0"))
                  fresh_keywords))%nat /\
  cf_score (@_analyze_content_freshness plain "BETA release of v2.0" "topic") = 95.
Proof.
  assert (3 <= length (List.filter
                         (fun keyword =>
                            str_in keyword (@str_lower plain "BETA release of v2.0"))
                         fresh_keywords))%nat as H.
  { vm_compute. apply le_n. }
  split; [exact H |].
  exact (proj1 (proj1 (proj2 (proj2 (@content_freshness_counts_listed_keywords plain
                                        "BETA release of v2.0" "topic"))) H)).
Defined.

Lemma provider_failures_become_verdicts_witness :
  raises (@verify_claim_body plain repository_checker (offline 0) "content") /\
  exists report,
    @comprehensive_check plain repository_checker (offline 0) "topic" "content" None
    = ret report /\
    field report "overall_score" = Some (PFloat 0) /\
    field report "is_pass" = Some (PBool false).
Proof.
  assert (raises (@verify_claim_body plain repository_checker (offline 0) "content")) as H.
  { eexists. vm_compute. reflexivity. }
  split; [exact H |].
  apply (proj1 (proj2 (proj2 (proj2 (@provider_failures_become_verdicts plain))))
           repository_checker (offline 0) "topic" "content" None H).
  - eexists. vm_compute. reflexivity.
  - eexists. vm_compute. reflexivity.
Defined.

(** A consistency score of 40, below 50, brings the suggestion for scores
    below 70 and no warning: one suggestion where one per threshold would
    make two. *)
Lemma consistency_below_50_has_no_warning :
  exists report,
    quality_report (dict [("confidence", PInt 80)]) (dict [("score", PInt 80)])
      (dict [("confidence", PInt 40)]) = ret report /\
    field report "improvement_suggestions" = Some (PList [PStr consistency_moderate]) /\
    one_per_threshold (NInt 80) (NInt 80) (NInt 40) = 2%nat.
Proof.
  eexists. split; [vm_compute; reflexivity |].
  split; vm_compute; reflexivity.
Qed.

Lemma improvement_suggestions_ordered_witness :
  exists report,
    quality_report (dict [("confidence", PInt 40)]) (dict [("score", PInt 80)])
      (dict [("confidence", PInt 90)]) = ret report /\
    field report "improvement_suggestions"
    = Some (PList [PStr truth_moderate; PStr truth_severe]).
Proof.
  apply (proj2 (@improvement_suggestions_ordered plain)); reflexivity.
Defined.

(** The text [[]] is JSON, though not a verdict: both parsers return the
    empty list, which has no confidence, and not the degraded verdict. *)
Lemma decoded_list_is_not_a_degraded_verdict :
  @json_loads array_runtime "[]" = ret (PList []) /\
  is_dict (PList []) = false /\
  @_parse_verification_result array_runtime "[]" = PList [] /\
  @_parse_cross_ref_result array_runtime "[]" = PList [] /\
  field (@_parse_verification_result array_runtime "[]") "confidence" = None /\
  field (@_parse_cross_ref_result array_runtime "[]") "confidence" = None.
Proof. repeat split; reflexivity. Qed.

Lemma parsers_fall_back_on_decode_errors_only_witness :
  raises (@json_loads plain "not json") /\
  field (@_parse_verification_result plain "not json") "reasoning" = Some (PStr "not json") /\
  field (@_parse_cross_ref_result plain "not json") "additional_context"
  = Some (PStr "not json").
Proof.
  assert (raises (@json_loads plain "not json")) as H.
  { eexists. vm_compute. reflexivity. }
  split; [exact H |].
  destruct (proj1 (@parsers_fall_back_on_decode_errors_only plain "not json") H)
    as (_ & _ & (_ & _ & Hreasoning) & (_ & _ & Hcontext)).
  split; assumption.
Defined.


(** [FactChecker().check_freshness("hello", "t")] returns the error
    verdict, where the blend of the time score 50 and the content score 50
    is 50, not fresh, level ["一般"]: what the same call returns once the
    searcher carries the attribute. *)
Example check_freshness_failing_input :
  field (@check_freshness plain repository_checker (offline 0) "hello" "t" None) "score"
  = Some (PInt 0) /\
  field (@check_freshness plain repository_checker (offline 0) "hello" "t" None)
    "freshness_level" = Some (PStr "未知") /\
  field (@check_freshness plain keyed_checker (offline 0) "hello" "t" None) "score"
  = Some (PFloat 50) /\
  field (@check_freshness plain keyed_checker (offline 0) "hello" "t" None) "is_fresh"
  = Some (PBool false) /\
  field (@check_freshness plain keyed_checker (offline 0) "hello" "t" None)
    "freshness_level" = Some (PStr "一般").
Proof. repeat split; vm_compute; reflexivity. Qed.

(** [FactChecker().check_freshness("hello", "t", datetime.now())]: the
    time score computed is 100, the one returned 0; the same call returns
    100 once the searcher carries the attribute. *)
Example time_score_failing_input :
  time_score (@time_part plain (offline 0) (Some 0)) = 100 /\
  field (@check_freshness plain repository_checker (offline 0) "hello" "t" (Some 0))
    "time_score" = Some (PInt 0) /\
  field (@check_freshness plain repository_checker (offline 0) "hello" "t" None)
    "time_score" = Some (PInt 0) /\
  field (@check_freshness plain keyed_checker (offline 0) "hello" "t" (Some 0))
    "time_score" = Some (PInt 100) /\
  field (@check_freshness plain keyed_checker (offline 0) "hello" "t" None)
    "time_score" = Some (PInt 50).
Proof. repeat split; vm_compute; reflexivity. Qed.

(** The end-to-end scenario: four freshness keywords, a timestamp two hours
    old, truth at 95 and consistency at 90 give the freshness 95, the
    overall score 94, a pass, the level ["优秀"] and no suggestion. *)
Example end_to_end_scenario :
  exists report,
    @comprehensive_check scenario_runtime scenario_checker (answering (2 * hour))
      "DeepSeek R1" "BETA release of v2.0 in 2026" (Some 0) = ret report /\
    field report "overall_score" = Some (PFloat 94) /\
    field report "is_pass" = Some (PBool true) /\
    field report "quality_level" = Some (PStr "优秀") /\
    field report "improvement_suggestions" = Some (PList []).
Proof.
  eexists. split; [vm_compute; reflexivity |].
  repeat split; vm_compute; reflexivity.
Qed.

(** Valid JSON of another shape is returned as decoded. *)
Example parser_returns_decoded_list :
  @_parse_verification_result (ascii_runtime [("[]", PList [])]) "[]" = PList [].
Proof. reflexivity. Qed.

(** * Further properties *)

(** ** The order of the floats *)

Ltac sf_order :=
  unfold SFleb, SFltb, SFcompare;
  repeat match goal with
         | x : spec_float |- _ => destruct x as [[|] | [|] | | [|] ? ?]
         end;
  simpl; try easy;
  repeat match goal with
         | |- context [Z.compare ?x ?y] =>
             destruct (Z.compare_spec x y); simpl; try easy; try lia
         end;
  subst;
  repeat match goal with
         | |- context [Pos.compare_cont Eq ?x ?y] =>
             change (Pos.compare_cont Eq x y) with (Pos.compare x y);
             destruct (Pos.compare_spec x y); simpl; try easy; try lia
         end.

Lemma SFleb_trans a b c : SFleb a b = true -> SFleb b c = true -> SFleb a c = true.
Proof. sf_order. Qed.

Lemma SFleb_ltb_trans a b c : SFleb a b = true -> SFltb b c = true -> SFltb a c = true.
Proof. sf_order. Qed.

Lemma SFltb_leb_trans a b c : SFltb a b = true -> SFleb b c = true -> SFltb a c = true.
Proof. sf_order. Qed.

Lemma SFltb_not_leb a b : SFltb a b = true -> SFleb b a = false.
Proof. sf_order. Qed.

Lemma float_leb_trans (a b c : float) :
  (a <=? b)%float = true -> (b <=? c)%float = true -> (a <=? c)%float = true.
Proof. rewrite !leb_spec. apply SFleb_trans. Qed.

Lemma float_leb_ltb_trans (a b c : float) :
  (a <=? b)%float = true -> (b <? c)%float = true -> (a <? c)%float = true.
Proof. rewrite !leb_spec, !ltb_spec. apply SFleb_ltb_trans. Qed.

Lemma float_ltb_leb_trans (a b c : float) :
  (a <? b)%float = true -> (b <=? c)%float = true -> (a <? c)%float = true.
Proof. rewrite !leb_spec, !ltb_spec. apply SFltb_leb_trans. Qed.

Lemma float_ltb_not_leb (a b : float) :
  (a <? b)%float = true -> (b <=? a)%float = false.
Proof. rewrite !leb_spec, !ltb_spec. apply SFltb_not_leb. Qed.

(** A threshold met by [x] is met by every [y] above [x], and by [x] every
    lower threshold. *)
Lemma threshold_up (t x y : float) :
  (x <=? y)%float = true -> (t <=? x)%float = true -> (t <=? y)%float = true.
Proof. intros Hxy Htx. exact (float_leb_trans _ _ _ Htx Hxy). Qed.

Lemma threshold_down (s t x : float) :
  (s <=? t)%float = true -> (t <=? x)%float = true -> (s <=? x)%float = true.
Proof. apply float_leb_trans. Qed.

(** ** The report, read back *)

Ltac bind_inv H :=
  let a := fresh "a" in
  let Ha := fresh "H" a in
  apply bind_ret_inv in H; destruct H as (a & Ha & H).

Section Further.
Context {RT : PyRuntime}.

(** What a returned report was computed from. *)
Lemma quality_report_inv truth_check freshness_check consistency_check report :
  quality_report truth_check freshness_check consistency_check = ret report ->
  exists truth_score freshness_score consistency_score a b c t70 f70 c70 t50 f50,
    py_get truth_check "confidence" (PInt 0) = ret truth_score /\
    py_get freshness_check "score" (PInt 0) = ret freshness_score /\
    py_get consistency_check "confidence" (PInt 0) = ret consistency_score /\
    py_mul_float truth_score 0.35 = ret a /\
    py_mul_float freshness_score 0.45 = ret b /\
    py_mul_float consistency_score 0.20 = ret c /\
    py_lt_int truth_score 70 = ret t70 /\ py_lt_int freshness_score 70 = ret f70 /\
    py_lt_int consistency_score 70 = ret c70 /\
    py_lt_int truth_score 50 = ret t50 /\ py_lt_int freshness_score 50 = ret f50 /\
    field report "overall_score" = Some (PFloat (a + b + c)%float) /\
    field report "is_pass" = Some (PBool (70 <=? a + b + c)%float) /\
    field report "quality_level" = Some (PStr (quality_band (a + b + c)%float).2) /\
    field report "improvement_suggestions"
    = Some (PList (PStr <$> improvement_suggestions_of t70 f70 c70 t50 f50)) /\
    field report "score_breakdown"
    = Some (dict [("truth_score", truth_score); ("freshness_score", freshness_score);
                  ("consistency_score", consistency_score);
                  ("weights", dict [("truth", PFloat 0.35); ("freshness", PFloat 0.45);
                                    ("consistency", PFloat 0.20)])]).
Proof.
  unfold quality_report. intros H.
  do 11 bind_inv H. injection H as <-.
  do 11 eexists. repeat (split; [eassumption |]).
  repeat split; reflexivity.
Qed.

Lemma quality_band_pass (x : float) :
  (70 <=? x)%float = true <-> In (quality_band x).2 passing_levels.
Proof.
  unfold quality_band, passing_levels.
  destruct (90 <=? x)%float eqn:H90.
  { rewrite (threshold_down 70 90 x eq_refl H90). simpl. intuition. }
  destruct (80 <=? x)%float eqn:H80.
  { rewrite (threshold_down 70 80 x eq_refl H80). simpl. intuition. }
  destruct (70 <=? x)%float eqn:H70.
  { simpl. intuition. }
  destruct (60 <=? x)%float, (50 <=? x)%float; simpl;
    (split; [discriminate | intros [H | [H | [H | []]]]; discriminate H]).
Qed.

(** X1.  The report passes exactly when its quality level is one of the three
    best. *)
Theorem pass_iff_top_levels :
  forall (truth_check freshness_check consistency_check report : PyVal),
    quality_report truth_check freshness_check consistency_check = ret report ->
    exists (is_pass : bool) (level : string),
      field report "is_pass" = Some (PBool is_pass) /\
      field report "quality_level" = Some (PStr level) /\
      (is_pass = true <-> In level passing_levels).
Proof.
  intros tc fc cc report H.
  destruct (quality_report_inv _ _ _ _ H)
    as (ts & fs & cs & a & b & c & t70 & f70 & c70 & t50 & f50
        & _ & _ & _ & _ & _ & _ & _ & _ & _ & _ & _ & _ & Hpass & Hlevel & _).
  eexists _, _. split; [exact Hpass |]. split; [exact Hlevel |].
  apply quality_band_pass.
Qed.

(** X2.  A higher overall score never gets a lower quality level. *)
Theorem quality_level_monotone :
  forall x y : float,
    (x <=? y)%float = true ->
    (level_rank (quality_band x).2 <= level_rank (quality_band y).2)%nat.
Proof.
  intros x y Hxy. unfold quality_band.
  pose proof (threshold_up 90 x y Hxy) as U90.
  pose proof (threshold_up 80 x y Hxy) as U80.
  pose proof (threshold_up 70 x y Hxy) as U70.
  pose proof (threshold_up 60 x y Hxy) as U60.
  pose proof (threshold_up 50 x y Hxy) as U50.
  destruct (90 <=? x)%float; [rewrite U90 by reflexivity; vm_compute; lia |].
  destruct (80 <=? x)%float;
    [rewrite U80 by reflexivity; destruct (90 <=? y)%float; vm_compute; lia |].
  destruct (70 <=? x)%float;
    [rewrite U70 by reflexivity;
     destruct (90 <=? y)%float, (80 <=? y)%float; vm_compute; lia |].
  destruct (60 <=? x)%float;
    [rewrite U60 by reflexivity;
     destruct (90 <=? y)%float, (80 <=? y)%float, (70 <=? y)%float; vm_compute; lia |].
  destruct (50 <=? x)%float;
    [rewrite U50 by reflexivity;
     destruct (90 <=? y)%float, (80 <=? y)%float, (70 <=? y)%float, (60 <=? y)%float;
     vm_compute; lia |].
  vm_compute. lia.
Qed.

Lemma num_ltb_50_70 n : num_ltb n 50 = true -> num_ltb n 70 = true.
Proof.
  destruct n as [z | f]; simpl.
  - rewrite !Z.ltb_lt. lia.
  - intros H. apply (float_ltb_leb_trans f (Zfloat 50) (Zfloat 70) H). reflexivity.
Qed.

Lemma py_lt_int_50_70 v below_50 below_70 :
  py_lt_int v 50 = ret below_50 -> py_lt_int v 70 = ret below_70 ->
  below_50 = true -> below_70 = true.
Proof.
  unfold py_lt_int. destruct (as_num v) as [n |]; [| discriminate].
  intros H50 H70. injection H50 as <-. injection H70 as <-. apply num_ltb_50_70.
Qed.

(** X3.  In the suggestions of a report, a warning never comes without the
    suggestion of its dimension: a score below 50 is below 70. *)
Theorem warning_implies_suggestion :
  forall (truth_check freshness_check consistency_check report : PyVal),
    quality_report truth_check freshness_check consistency_check = ret report ->
    exists suggestions : list string,
      field report "improvement_suggestions" = Some (PList (PStr <$> suggestions)) /\
      (In truth_severe suggestions -> In truth_moderate suggestions) /\
      (In freshness_severe suggestions -> In freshness_moderate suggestions).
Proof.
  intros tc fc cc report H.
  destruct (quality_report_inv _ _ _ _ H)
    as (ts & fs & cs & a & b & c & t70 & f70 & c70 & t50 & f50
        & _ & _ & _ & _ & _ & _ & Ht70 & Hf70 & _ & Ht50 & Hf50 & _ & _ & _ & Hs & _).
  exists (improvement_suggestions_of t70 f70 c70 t50 f50).
  split; [exact Hs |].
  pose proof (py_lt_int_50_70 _ _ _ Ht50 Ht70) as Ht.
  pose proof (py_lt_int_50_70 _ _ _ Hf50 Hf70) as Hf.
  rewrite improvement_suggestions_split.
  split.
  - destruct t50.
    + rewrite Ht by reflexivity. intros _. simpl. auto.
    + destruct t70, f70, c70, f50; simpl;
        intros Hin; repeat (destruct Hin as [Hin | Hin]; [discriminate Hin |]);
        destruct Hin.
  - destruct f50.
    + rewrite Hf by reflexivity. intros _.
      destruct t70, c70, t50; simpl; auto.
    + destruct t70, f70, c70, t50; simpl;
        intros Hin; repeat (destruct Hin as [Hin | Hin]; [discriminate Hin |]);
        destruct Hin.
Qed.

(** ** The time score and the blend *)

(** X4.  Of two ages, the greater never has the higher time score. *)
Theorem time_score_antitone :
  forall a b : float,
    (a <=? b)%float = true -> (time_band b).2 <= (time_band a).2.
Proof.
  intros a b Hab. unfold time_band.
  assert (forall t : float, (b <? t)%float = true -> (a <? t)%float = true) as Hdown.
  { intros t Hbt. exact (float_leb_ltb_trans _ _ _ Hab Hbt). }
  repeat match goal with
         | |- context [(b <? ?t)%float] =>
             let Hb := fresh "Hb" in
             destruct (b <? t)%float eqn:Hb;
             [rewrite ?(Hdown t Hb) | clear Hb]
         end;
  repeat match goal with
         | |- context [(a <? ?t)%float] => destruct (a <? t)%float
         end;
  simpl; lia.
Qed.

#[local] Arguments float_of_int : simpl never.
#[local] Arguments Zfloat : simpl never.

Lemma time_score_values w timestamp : In (time_score (time_part w timestamp)) time_scores.
Proof.
  destruct timestamp as [ts |]; simpl; [| auto 10].
  unfold time_band.
  repeat match goal with |- context [if ?c then _ else _] => destruct c; simpl; auto 10 end.
Qed.

Lemma cf_score_by_count content topic :
  let c := _analyze_content_freshness content topic in
  ((3 <= fresh_count content)%nat -> cf_score c = 95) /\
  ((1 <= fresh_count content)%nat -> cf_score c = 95 \/ cf_score c = 85) /\
  (cf_score c = 95 \/ cf_score c = 85 \/ (cf_score c = 50 /\ fresh_count content = 0%nat)).
Proof.
  unfold _analyze_content_freshness.
  generalize (fresh_count content). intros n.
  destruct (Nat.leb_spec 3 n); cbn [cf_score].
  { repeat split; auto. }
  destruct (Nat.leb_spec 1 n); cbn [cf_score].
  { repeat split; auto; lia. }
  repeat split; lia.
Qed.

Lemma blend_is_blend_of t c : blend t c = blend_of (time_score t) (cf_score c).
Proof. reflexivity. Qed.

(** X5.  [check_freshness] without a search score, the searcher having the
    attribute [api_key]: the verdict is that of the blend, and a content
    with three freshness keywords is judged fresh whatever its age, a
    content with one keyword unless its time score is 10 (720 hours or
    more). *)
Theorem keywords_make_fresh :
  forall (self : FactChecker) (w : World) (timestamp : option datetime)
         (content topic : string) (key : PyVal),
    getattr (fc_web_searcher self) "api_key" = ret key ->
    without_search_score self topic content key ->
    (1 <= fresh_count content)%nat ->
    let verdict := check_freshness self w content topic timestamp in
    field verdict "method" = Some (PStr "hybrid") /\
    (exists is_fresh : bool, field verdict "is_fresh" = Some (PBool is_fresh)) /\
    ((3 <= fresh_count content)%nat -> field verdict "is_fresh" = Some (PBool true)) /\
    (time_score (time_part w timestamp) <> 10 ->
     field verdict "is_fresh" = Some (PBool true)).
Proof.
  intros self w timestamp content topic key Hattr Hno Hone verdict.
  destruct (check_freshness_without_search self w content topic timestamp key Hattr Hno)
    as (_ & Hfresh & _ & Hmethod).
  fold verdict in Hfresh, Hmethod. rewrite blend_is_blend_of in Hfresh.
  pose proof (time_score_values w timestamp) as Ht.
  destruct (cf_score_by_count content topic) as (H3 & H1 & _).
  split; [exact Hmethod |]. split; [eauto |].
  rewrite Hfresh. unfold time_scores in Ht. simpl in Ht.
  split.
  - intros Hthree. rewrite (H3 Hthree).
    repeat (destruct Ht as [<- | Ht]; [vm_compute; reflexivity |]). destruct Ht.
  - intros Hnot.
    destruct Ht as [Ht | [Ht | [Ht | [Ht | [Ht | [Ht | [Ht | []]]]]]]];
      destruct (H1 Hone) as [-> | ->];
      first [rewrite <- Ht; vm_compute; reflexivity
            | exfalso; apply Hnot; symmetry; exact Ht].
Qed.

(** X6.  [check_freshness] without a search score, the searcher having the
    attribute [api_key]: the level is ["过时"] only for a content without
    keyword whose time score is 10, and a content without timestamp is
    ["较新"] or ["一般"], never ["最新"] nor ["过时"]. *)
Theorem stale_only_old_and_plain :
  forall (self : FactChecker) (w : World) (timestamp : option datetime)
         (content topic : string) (key : PyVal),
    getattr (fc_web_searcher self) "api_key" = ret key ->
    without_search_score self topic content key ->
    let verdict := check_freshness self w content topic timestamp in
    exists level : string,
      field verdict "freshness_level" = Some (PStr level) /\
      (level = "过时" ->
       fresh_count content = 0%nat /\ time_score (time_part w timestamp) = 10) /\
      (timestamp = None -> level = "较新" \/ level = "一般").
Proof.
  intros self w timestamp content topic key Hattr Hno verdict.
  destruct (check_freshness_without_search self w content topic timestamp key Hattr Hno)
    as (_ & _ & Hlevel & _).
  fold verdict in Hlevel. rewrite blend_is_blend_of in Hlevel.
  pose proof (time_score_values w timestamp) as Ht.
  destruct (cf_score_by_count content topic) as (_ & _ & Hc).
  eexists. split; [exact Hlevel |].
  split.
  - unfold time_scores in Ht. simpl in Ht.
    destruct Ht as [Ht | [Ht | [Ht | [Ht | [Ht | [Ht | [Ht | []]]]]]]];
      destruct Hc as [-> | [-> | [-> Hzero]]];
      rewrite <- Ht; intros Hstale;
      first [vm_compute in Hstale; discriminate Hstale
            | split; [exact Hzero | reflexivity]].
  - intros ->. simpl.
    destruct Hc as [-> | [-> | [-> _]]]; vm_compute; auto.
Qed.

(** ** Integer scores *)

Lemma all_within_true :
  all_within (weighted_table 0.35) (weighted_table 0.45) (weighted_table 0.20) = true.
Proof. vm_compute. reflexivity. Qed.

Lemma in_weighted_table w z :
  0 <= z <= 100 -> In (z, (Zfloat z * w)%float) (weighted_table w).
Proof.
  intros Hz. unfold weighted_table.
  rewrite <- (Z2Nat.id z) at 1 2 by lia.
  apply (in_map (fun i => (Z.of_nat i, (Zfloat (Z.of_nat i) * w)%float))).
  apply in_seq. lia.
Qed.

Lemma all_within_in ts fs cs ta fb cc :
  all_within ts fs cs = true -> In ta ts -> In fb fs -> In cc cs ->
  within (fst ta) (fst fb) (snd ta + snd fb + snd cc)%float = true.
Proof.
  unfold all_within. intros H Ha Hb Hc.
  rewrite forallb_forall in H. specialize (H _ Ha).
  rewrite forallb_forall in H. specialize (H _ Hb).
  rewrite forallb_forall in H. exact (H _ Hc).
Qed.

Lemma within_weighted t f c :
  0 <= t <= 100 -> 0 <= f <= 100 -> 0 <= c <= 100 ->
  within t f (weighted (NInt t) (NInt f) (NInt c)) = true.
Proof.
  intros Ht Hf Hc.
  exact (all_within_in _ _ _ _ _ _ all_within_true
           (in_weighted_table 0.35 t Ht) (in_weighted_table 0.45 f Hf)
           (in_weighted_table 0.20 c Hc)).
Qed.

(** X7.  For integer scores between 0 and 100 the overall score lies between 0
    and 100, and the report passes only if the freshness is at least 34 and
    the truth at least 15; it can pass with the consistency 0. *)
Theorem integer_scores_bound_the_report :
  forall (truth_check freshness_check consistency_check : PyVal) (t f c : Z),
    field truth_check "confidence" = Some (PInt t) ->
    field freshness_check "score" = Some (PInt f) ->
    field consistency_check "confidence" = Some (PInt c) ->
    0 <= t <= 100 -> 0 <= f <= 100 -> 0 <= c <= 100 ->
    exists (report : PyVal) (x : float) (is_pass : bool),
      quality_report truth_check freshness_check consistency_check = ret report /\
      field report "overall_score" = Some (PFloat x) /\
      field report "is_pass" = Some (PBool is_pass) /\
      (0 <=? x)%float = true /\ (x <=? 100)%float = true /\
      (is_pass = true -> 34 <= f /\ 15 <= t) /\
      (t = 100 -> f = 100 -> c = 0 -> is_pass = true).
Proof.
  intros tc fc cc t f c Ht Hf Hc Rt Rf Rc.
  destruct (quality_report_of_scores tc fc cc (NInt t) (NInt f) (NInt c) Ht Hf Hc Rt Rf Rc)
    as (report & Hrun & Hoverall & Hpass & _).
  exists report, (weighted (NInt t) (NInt f) (NInt c)), (70 <=? weighted (NInt t) (NInt f) (NInt c))%float.
  split; [exact Hrun |]. split; [exact Hoverall |]. split; [exact Hpass |].
  pose proof (within_weighted t f c Rt Rf Rc) as H. unfold within in H.
  apply andb_prop in H. destruct H as [H Himp].
  apply andb_prop in H. destruct H as [H0 H100].
  split; [exact H0 |]. split; [exact H100 |]. split.
  - intros Hp. rewrite Hp in Himp. simpl in Himp.
    apply andb_prop in Himp. destruct Himp as [Hf34 Ht15].
    apply Z.leb_le in Hf34, Ht15. split; assumption.
  - intros -> -> ->. vm_compute. reflexivity.
Qed.


(** ** The request to the provider *)

Lemma mapM_Forall {A B} (f : A -> M B) (P : B -> Prop) (l : list A) (ys : list B) :
  (forall x y, f x = ret y -> P y) -> mapM f l = ret ys -> Forall P ys.
Proof.
  intros Hf. revert ys. induction l as [| x l IH]; simpl; intros ys H.
  - injection H as <-. constructor.
  - bind_inv H. bind_inv H. injection H as <-. constructor; eauto.
Qed.

Lemma Forall_concat_lists {A} (P : A -> Prop) (ls : list (list A)) :
  Forall (Forall P) ls -> Forall P (concat ls).
Proof.
  induction 1 as [| l ls Hl _ IH]; simpl; [constructor |].
  apply Forall_app. split; assumption.
Qed.

Lemma output_item_texts_truthy item texts :
  output_item_texts item = ret texts -> Forall (fun v => truthy v = true) texts.
Proof.
  unfold output_item_texts. intros H.
  bind_inv H. bind_inv H.
  destruct (py_eq_str a "message" && py_eq_str a0 "assistant").
  - bind_inv H. bind_inv H. bind_inv H. injection H as <-.
    apply Forall_concat_lists.
    eapply mapM_Forall; [| eassumption].
    intros x y Hx. cbv beta in Hx. bind_inv Hx.
    destruct (py_eq_str a4 "output_text").
    + bind_inv Hx. injection Hx as <-.
      destruct (truthy a5) eqn:Ht; constructor; [exact Ht | constructor].
    + injection Hx as <-. constructor.
  - destruct (py_eq_str a "web_search_call").
    + bind_inv H. bind_inv H. injection H as <-. constructor.
    + injection H as <-. constructor.
Qed.

Lemma py_join_nonempty sep v l s :
  py_join sep (v :: l) = ret s -> truthy v = true -> s <> "".
Proof.
  destruct v; simpl; try discriminate.
  destruct s0 as [| c s0]; [discriminate |]. intros H _.
  destruct l as [| v' l'].
  - injection H as <-. discriminate.
  - bind_inv H. injection H as <-. discriminate.
Qed.

(** X8.  What [_make_glm_request] returns is never the empty string: it returns
    only after it has collected at least one non-empty text. *)
Theorem glm_request_returns_text :
  forall (self : ContentImprover) (w : World) (prompt : Prompt)
         (system_prompt : option string) (enable_web_search : bool) (max_tokens : Z)
         (content : string),
    _make_glm_request self w prompt system_prompt enable_web_search max_tokens = ret content ->
    content <> "".
Proof.
  intros self w prompt sp ws mt content H. unfold _make_glm_request in H.
  destruct (negb (truthy (ci_api_key self))); [discriminate |].
  bind_inv H.
  destruct (negb (status_code a =? 200)); [discriminate |].
  bind_inv H. bind_inv H.
  destruct a1; [bind_inv H; bind_inv H; bind_inv H; discriminate |].
  bind_inv H.
  destruct (negb a1); [discriminate |].
  bind_inv H. bind_inv H. bind_inv H.
  assert (Forall (fun v => truthy v = true) (concat a4)) as Htruthy.
  { apply Forall_concat_lists.
    eapply mapM_Forall; [| eassumption].
    intros x y. apply output_item_texts_truthy. }
  destruct (concat a4) as [| v l]; [discriminate |].
  bind_inv H. bind_inv H. bind_inv H. injection H as <-.
  inversion Htruthy; subst.
  eapply py_join_nonempty; eassumption.
Qed.

(** X9.  [_make_glm_request] returns only if a key is set, the provider answered
    with status 200, and the body is an object without [error] and with
    [output]; the text it then returns is not empty. *)
Theorem glm_request_success_conditions :
  forall (self : ContentImprover) (w : World) (prompt : Prompt)
         (system_prompt : option string) (enable_web_search : bool) (max_tokens : Z)
         (content : string),
    _make_glm_request self w prompt system_prompt enable_web_search max_tokens = ret content ->
    truthy (ci_api_key self) = true /\
    exists request response body output,
      requests_post w request = ret response /\
      gq_prompt request = prompt /\
      status_code response = 200 /\
      json response = ret (PDict body) /\
      body !! "error" = None /\
      body !! "output" = Some output.
Proof.
  intros self w prompt sp ws mt content H. unfold _make_glm_request in H.
  destruct (truthy (ci_api_key self)); [| discriminate]. cbn [negb] in H.
  split; [reflexivity |].
  match type of H with
  | bind (requests_post w ?q) _ = _ =>
      destruct (requests_post w q) as [e | response] eqn:Hpost; [discriminate |];
      exists q, response
  end.
  cbn [bind] in H.
  destruct (status_code response =? 200) eqn:Hstatus; [| discriminate]. cbn [negb] in H.
  apply Z.eqb_eq in Hstatus.
  destruct (json response) as [e | result] eqn:Hjson; [discriminate |]. cbn [bind] in H.
  destruct result as [| | | | s | l | body |]; try discriminate.
  - (* a str body has no item under a key *)
    cbn [py_contains bind ret] in H.
    destruct (str_in "error" s); [discriminate |].
    destruct (str_in "output" s); discriminate.
  - cbn [py_contains bind ret] in H.
    destruct (existsb _ l); [discriminate |].
    destruct (existsb _ l); discriminate.
  - exists body.
    cbn [py_contains bind ret] in H.
    destruct (body !! "error") as [err |] eqn:Herror.
    + rewrite bool_decide_eq_true_2 in H by eauto.
      bind_inv H. bind_inv H. bind_inv H. discriminate.
    + rewrite bool_decide_eq_false_2 in H by (intros [? ?]; discriminate).
      destruct (body !! "output") as [output |] eqn:Houtput.
      * exists output. repeat split; try assumption; reflexivity.
      * rewrite bool_decide_eq_false_2 in H by (intros [? ?]; discriminate).
        discriminate.
Qed.

Lemma output_texts_of texts :
  mapM (fun content_item =>
          kind <- py_get content_item "type" PNone ;;
          if py_eq_str kind "output_text" then
            t <- py_get content_item "text" (PStr "") ;;
            ret (if truthy t then [t] else [])
          else ret []) (output_text <$> texts)
  = ret ((fun t => if nonempty t then [PStr t] else []) <$> texts).
Proof.
  induction texts as [| t texts IH]; [reflexivity |].
  cbn [fmap list_fmap mapM]. fold (@fmap list _ _ _ output_text texts).
  rewrite IH. reflexivity.
Qed.

Lemma concat_nonempty texts :
  concat ((fun t => if nonempty t then [PStr t] else []) <$> texts)
  = PStr <$> List.filter nonempty texts.
Proof.
  induction texts as [| t texts IH]; [reflexivity |].
  cbn [fmap list_fmap concat List.filter]. 
  fold (@fmap list _ _ _ (fun t => if nonempty t then [PStr t] else []) texts).
  rewrite IH. destruct (nonempty t); reflexivity.
Qed.

Lemma output_item_texts_of item :
  output_item_texts (item_value item) = ret (PStr <$> assistant_texts item).
Proof.
  destruct item as [role texts | query]; [| reflexivity].
  unfold output_item_texts, item_value, assistant_texts.
  change (py_get (dict _) "type" (PStr "unknown")) with (ret (PStr "message")).
  cbn [bind ret py_eq_str String.eqb Ascii.eqb Bool.eqb andb].
  change (py_get (dict _) "role" PNone) with (ret (PStr role)).
  cbn [bind ret py_eq_str].
  destruct (String.eqb role "assistant"); [| reflexivity].
  cbn [andb].
  change (py_get (dict _) "content" (PList [])) with (ret (PList (output_text <$> texts))).
  cbn [bind ret py_iter].
  rewrite output_texts_of. cbn [bind ret].
  rewrite concat_nonempty. reflexivity.
Qed.

Lemma output_items_texts_of items :
  mapM output_item_texts (item_value <$> items)
  = ret ((fun item => PStr <$> assistant_texts item) <$> items).
Proof.
  induction items as [| item items IH]; [reflexivity |].
  cbn [fmap list_fmap mapM]. fold (@fmap list _ _ _ item_value items).
  rewrite output_item_texts_of, IH. reflexivity.
Qed.

Lemma concat_assistant_texts items :
  concat ((fun item => PStr <$> assistant_texts item) <$> items)
  = PStr <$> concat (assistant_texts <$> items).
Proof.
  induction items as [| item items IH]; [reflexivity |].
  cbn [fmap list_fmap concat].
  fold (@fmap list _ _ _ (fun item => PStr <$> assistant_texts item) items).
  fold (@fmap list _ _ _ assistant_texts items).
  rewrite IH, fmap_app. reflexivity.
Qed.

Lemma py_join_strings sep texts :
  py_join sep (PStr <$> texts) = ret (String.concat sep texts).
Proof.
  induction texts as [| t texts IH]; [reflexivity |].
  destruct texts as [| t' texts]; [reflexivity |].
  cbn [fmap list_fmap py_join] in *. rewrite IH. reflexivity.
Qed.

(** X10.  The text that [_make_glm_request] returns is the non-empty texts of the
    assistant's messages, in their order, joined by newlines; web searches,
    messages of another role and empty texts add nothing, and a response
    that holds no such text is an error. *)
Theorem glm_request_joins_assistant_texts :
  forall (self : ContentImprover) (w : World) (prompt : Prompt)
         (system_prompt : option string) (enable_web_search : bool) (max_tokens : Z)
         (items : list OutputItem),
    truthy (ci_api_key self) = true ->
    (forall request, requests_post w request = ret (glm_response items)) ->
    _make_glm_request self w prompt system_prompt enable_web_search max_tokens
    = match concat (assistant_texts <$> items) with
      | [] => raise (Exn OtherException "GLM-4.7 响应中未找到有效文本内容")
      | texts => ret (String.concat newline texts)
      end.
Proof.
  intros self w prompt sp ws mt items Hkey Hpost.
  unfold _make_glm_request. rewrite Hkey, Hpost. cbn [negb bind ret].
  unfold glm_response at 1. cbn [status_code Z.eqb Pos.eqb negb].
  unfold glm_response at 1. cbn [json bind ret].
  change (py_contains "error" (dict _)) with (@ret bool false). cbn [bind ret].
  change (py_contains "output" (dict _)) with (@ret bool true). cbn [bind ret negb].
  change (py_getitem (dict _) "output") with (ret (PList (item_value <$> items))).
  cbn [bind ret py_iter].
  rewrite output_items_texts_of. cbn [bind ret].
  rewrite concat_assistant_texts.
  destruct (concat (assistant_texts <$> items)) as [| t texts]; [reflexivity |].
  rewrite fmap_cons, <- fmap_cons.
  rewrite py_join_strings. cbn [bind ret].
  change (py_contains "usage" (dict _)) with (@ret bool false).
  reflexivity.
Qed.

(** ** The improver on a report of the checker *)

Lemma field_py_getitem v k x : field v k = Some x -> py_getitem v k = ret x.
Proof.
  destruct v; simpl; try discriminate. intros ->. reflexivity.
Qed.

(** A report that [quality_report] returns, with the numbers behind its
    scores. *)
Lemma quality_report_scores truth_check freshness_check consistency_check report :
  quality_report truth_check freshness_check consistency_check = ret report ->
  exists (t f c : Num) (x y z : float),
    score_of truth_check "confidence" = Some t /\
    score_of freshness_check "score" = Some f /\
    score_of consistency_check "confidence" = Some c /\
    to_float t = ret x /\ to_float f = ret y /\ to_float c = ret z /\
    field report "overall_score" = Some (PFloat (x * 0.35 + y * 0.45 + z * 0.20)%float) /\
    field report "improvement_suggestions" = Some (PList (PStr <$> suggestions_for t f c)) /\
    exists truth_score freshness_score consistency_score weights,
      as_num truth_score = Some t /\ as_num freshness_score = Some f /\
      as_num consistency_score = Some c /\
      field report "score_breakdown"
      = Some (dict [("truth_score", truth_score); ("freshness_score", freshness_score);
                    ("consistency_score", consistency_score); ("weights", weights)]).
Proof.
  unfold quality_report. intros H.
  destruct truth_check as [| | | | | | dt |]; try discriminate.
  destruct freshness_check as [| | | | | | df |]; try discriminate.
  destruct consistency_check as [| | | | | | dc |]; try discriminate.
  cbn [py_get bind ret] in H. unfold py_mul_float, py_lt_int in H.
  cbn [score_of].
  destruct (as_num (default (PInt 0) (dt !! "confidence"))) as [t |] eqn:Nt; [| discriminate].
  destruct (as_num (default (PInt 0) (df !! "score"))) as [f |] eqn:Nf;
    [| cbn [bind] in H; destruct (to_float t); discriminate].
  destruct (as_num (default (PInt 0) (dc !! "confidence"))) as [c |] eqn:Nc;
    [| cbn [bind] in H; destruct (to_float t); [discriminate |];
       cbn [bind] in H; destruct (to_float f); discriminate].
  destruct (to_float t) as [| x] eqn:Hx; [discriminate |].
  destruct (to_float f) as [| y] eqn:Hy; [discriminate |].
  destruct (to_float c) as [| z] eqn:Hz; [discriminate |].
  cbn [bind ret] in H. injection H as <-.
  exists t, f, c, x, y, z.
  do 8 (split; [first [reflexivity | assumption] |]).
  eexists _, _, _, _. repeat (split; [eassumption |]).
  reflexivity.
Qed.

Lemma to_float_num_float n x : to_float n = ret x -> x = num_float n.
Proof.
  destruct n as [z | f]; simpl.
  - unfold float_of_int. destruct (is_infinity (Zfloat z)); [discriminate |].
    intros H. injection H as <-. reflexivity.
  - intros H. injection H as <-. reflexivity.
Qed.

Lemma need_by_severity_of score n severe moderate needs :
  as_num score = Some n ->
  need_by_severity score severe moderate needs
  = ret (needs ++ (PStr <$> severity n severe moderate))%list.
Proof.
  intros Hn. unfold need_by_severity, py_lt_int, severity. rewrite Hn. cbn [bind ret].
  destruct (num_ltb n 50); [reflexivity |]. cbn [bind ret].
  destruct (num_ltb n 70); [reflexivity |].
  cbn [fmap list_fmap]. rewrite app_nil_r. reflexivity.
Qed.

Lemma severity_nil n severe moderate :
  severity n severe moderate = [] <-> num_ltb n 70 = false.
Proof.
  unfold severity. pose proof (num_ltb_50_70 n) as H.
  destruct (num_ltb n 50); [rewrite H by reflexivity; split; discriminate |].
  destruct (num_ltb n 70); split; (discriminate || reflexivity).
Qed.

Lemma suggestions_for_nil t f c :
  suggestions_for t f c = []
  <-> num_ltb t 70 = false /\ num_ltb f 70 = false /\ num_ltb c 70 = false.
Proof.
  unfold suggestions_for.
  pose proof (num_ltb_50_70 t) as Ht. pose proof (num_ltb_50_70 f) as Hf.
  destruct (num_ltb t 50); [rewrite Ht by reflexivity |];
    (destruct (num_ltb f 50); [rewrite Hf by reflexivity |]);
    destruct (num_ltb t 70), (num_ltb f 70), (num_ltb c 70);
    vm_compute; intuition discriminate.
Qed.

(** X11.  On every report that [comprehensive_check] returns,
    [analyze_improvement_needs] returns: first its own needs, at most one
    for each of the three scores, then the suggestions of the report as
    they are.  Its own needs are none exactly when the report has no
    suggestion, that is when no score is below 70. *)
Theorem needs_of_a_report :
  forall (truth_check freshness_check consistency_check report : PyVal),
    quality_report truth_check freshness_check consistency_check = ret report ->
    exists (t f c : Num),
      score_of truth_check "confidence" = Some t /\
      score_of freshness_check "score" = Some f /\
      score_of consistency_check "confidence" = Some c /\
      field report "improvement_suggestions" = Some (PList (PStr <$> suggestions_for t f c)) /\
      analyze_improvement_needs report
      = ret (PStr <$> (own_needs t f c ++ suggestions_for t f c))%list /\
      (own_needs t f c = [] <-> suggestions_for t f c = []) /\
      (own_needs t f c = []
       <-> num_ltb t 70 = false /\ num_ltb f 70 = false /\ num_ltb c 70 = false).
Proof.
  intros tc fc cc report H.
  destruct (quality_report_scores _ _ _ _ H)
    as (t & f & c & x & y & z & Ht & Hf & Hc & _ & _ & _ & _ & Hs
        & ts & fs & cs & ws & Nt & Nf & Nc & Hb).
  exists t, f, c. repeat (split; [assumption |]).
  assert (own_needs t f c = []
          <-> num_ltb t 70 = false /\ num_ltb f 70 = false /\ num_ltb c 70 = false) as Hown.
  { unfold own_needs. split.
    - intros Hnil. apply app_eq_nil in Hnil as [H1 Hnil].
      apply app_eq_nil in Hnil as [H2 H3].
      rewrite severity_nil in H1, H2, H3. auto.
    - intros (H1 & H2 & H3). rewrite <- severity_nil in H1, H2, H3.
      rewrite H1, H2, H3. reflexivity. }
  split; [| split; [rewrite suggestions_for_nil; exact Hown | exact Hown]].
  unfold analyze_improvement_needs.
  rewrite (field_py_getitem _ _ _ Hb). cbn [bind ret].
  change (py_getitem (dict _) "truth_score") with (ret ts).
  change (py_getitem (dict _) "freshness_score") with (ret fs).
  change (py_getitem (dict _) "consistency_score") with (ret cs).
  cbn [bind ret].
  rewrite (need_by_severity_of ts t) by assumption. cbn [bind ret].
  rewrite (need_by_severity_of fs f) by assumption. cbn [bind ret].
  rewrite (need_by_severity_of cs c) by assumption. cbn [bind ret].
  rewrite (field_py_get _ _ _ _ Hs). cbn [bind ret].
  rewrite (field_py_getitem _ _ _ Hs).
  unfold own_needs. rewrite !fmap_app. cbn [app].
  destruct (suggestions_for t f c) as [| s l].
  - cbn [truthy fmap list_fmap]. rewrite !app_nil_r, <- app_assoc. reflexivity.
  - cbn [truthy fmap list_fmap bind ret py_iter]. rewrite <- !app_assoc. reflexivity.
Qed.

Lemma improve_content_body_prompt self w topic content check_result :
  improve_content_body self w topic content check_result
  = (prompt <- improvement_prompt topic content check_result ;;
     result_text <-
       _make_glm_request self w prompt (Some improvement_system_prompt) true 3000 ;;
     match read_improvement content (clean_json_response result_text) with
     | inr v => ret v
     | inl e =>
         if is_json_decode_error e
         then ret (improvement_failure content ("解析失败: " +:+ exn_msg e))
         else raise e
     end).
Proof.
  unfold improve_content_body, improvement_prompt.
  repeat match goal with
         | |- bind ?m _ = bind (bind ?m _) _ =>
             destruct m; cbn [bind]; [reflexivity |]
         end.
  reflexivity.
Qed.

Lemma improve_content_of_prompt self w topic content check_result prompt :
  truthy (ci_api_key self) = true ->
  improvement_prompt topic content check_result = ret prompt ->
  improve_content self w topic content check_result
  = improvement_of content
      (_make_glm_request self w prompt (Some improvement_system_prompt) true 3000).
Proof.
  intros Hkey Hprompt. unfold improve_content. rewrite Hkey. cbn [negb].
  rewrite improve_content_body_prompt, Hprompt. cbn [bind ret].
  unfold improvement_of.
  destruct (_make_glm_request _ _ _ _ _ _) as [e | result_text]; [reflexivity |].
  cbn [bind].
  destruct (read_improvement _ _) as [e | v]; [| reflexivity].
  destruct (is_json_decode_error e); reflexivity.
Qed.

Lemma need_if_low_of score n x before after needs :
  as_num score = Some n -> to_float n = ret x ->
  need_if_low score before after needs = ret (needs ++ low_note n before after)%list.
Proof.
  intros Hn Hx. unfold need_if_low, py_lt_int, low_note. rewrite Hn. cbn [bind ret].
  destruct (num_ltb n 70); [| rewrite app_nil_r; reflexivity].
  unfold py_format_1f. rewrite Hn, Hx. cbn [bind ret].
  rewrite (to_float_num_float _ _ Hx).
  destruct score; try discriminate; reflexivity.
Qed.

Lemma py_format_1f_of score n x :
  as_num score = Some n -> to_float n = ret x ->
  py_format_1f score = ret (format_1f (num_float n)).
Proof.
  intros Hn Hx. unfold py_format_1f. rewrite Hn, Hx. cbn [bind ret].
  rewrite (to_float_num_float _ _ Hx).
  destruct score; try discriminate; reflexivity.
Qed.

(** X12.  [improve_content] on a report that [comprehensive_check] returns: the
    prompt is always built, with the overall score and the three scores
    printed to one decimal, and with a note for each score below 70
    followed by the suggestions of the report in their order; the result
    is decided by the answer of the provider to that one prompt. *)
Theorem improve_content_on_a_report :
  forall (self : ContentImprover) (w : World) (topic content : string)
         (truth_check freshness_check consistency_check report : PyVal),
    quality_report truth_check freshness_check consistency_check = ret report ->
    truthy (ci_api_key self) = true ->
    exists (t f c : Num) (overall : float),
      score_of truth_check "confidence" = Some t /\
      score_of freshness_check "score" = Some f /\
      score_of consistency_check "confidence" = Some c /\
      field report "overall_score" = Some (PFloat overall) /\
      let prompt :=
        ImprovementPrompt topic content (format_1f overall)
          (format_1f (num_float t)) (format_1f (num_float f)) (format_1f (num_float c))
          (low_notes t f c ++ (py_str <$> (PStr <$> suggestions_for t f c)))%list in
      improvement_prompt topic content report = ret prompt /\
      improve_content self w topic content report
      = improvement_of content
          (_make_glm_request self w prompt (Some improvement_system_prompt) true 3000).
Proof.
  intros self w topic content tc fc cc report H Hkey.
  destruct (quality_report_scores _ _ _ _ H)
    as (t & f & c & x & y & z & Ht & Hf & Hc & Hx & Hy & Hz & Ho & Hs
        & ts & fs & cs & ws & Nt & Nf & Nc & Hb).
  exists t, f, c, (x * 0.35 + y * 0.45 + z * 0.20)%float.
  repeat (split; [assumption |]).
  cbv zeta.
  assert (improvement_prompt topic content report
          = ret (ImprovementPrompt topic content
                   (format_1f (x * 0.35 + y * 0.45 + z * 0.20)%float)
                   (format_1f (num_float t)) (format_1f (num_float f))
                   (format_1f (num_float c))
                   (low_notes t f c ++ (py_str <$> (PStr <$> suggestions_for t f c)))%list))
    as Hprompt.
  { unfold improvement_prompt.
    rewrite (field_py_getitem _ _ _ Hb). cbn [bind ret].
    change (py_getitem (dict _) "truth_score") with (ret ts).
    change (py_getitem (dict _) "freshness_score") with (ret fs).
    change (py_getitem (dict _) "consistency_score") with (ret cs).
    cbn [bind ret].
    rewrite (field_py_getitem _ _ _ Ho). cbn [bind ret].
    rewrite (need_if_low_of ts t x) by assumption. cbn [bind ret].
    rewrite (need_if_low_of fs f y) by assumption. cbn [bind ret].
    rewrite (need_if_low_of cs c z) by assumption. cbn [bind ret].
    rewrite (field_py_get _ _ _ _ Hs). cbn [bind ret].
    rewrite (field_py_getitem _ _ _ Hs).
    rewrite (py_format_1f_of ts t x), (py_format_1f_of fs f y), (py_format_1f_of cs c z)
      by assumption.
    unfold low_notes. cbn [app].
    destruct (suggestions_for t f c) as [| s l].
    - cbn [truthy fmap list_fmap bind ret py_format_1f as_num to_float].
      rewrite !app_nil_r, <- app_assoc. reflexivity.
    - cbn [truthy fmap list_fmap bind ret py_iter py_format_1f as_num to_float].
      rewrite <- !app_assoc. reflexivity. }
  split; [exact Hprompt |].
  apply improve_content_of_prompt; assumption.
Qed.

Lemma mapM_get_dicts items k dflt (l : list PyVal) :
  mapM (fun imp => py_get imp k dflt) items = ret l ->
  Forall (fun imp => exists d, imp = PDict d) items.
Proof.
  revert l. induction items as [| imp items IH]; intros l H; [constructor |].
  cbn [mapM] in H. bind_inv H. bind_inv H.
  constructor; [| eauto].
  destruct imp; try discriminate. eauto.
Qed.

(** X13.  When [improve_content] reports success, the provider returned a text
    that, cleaned of its code fence, decodes to a JSON object.  The three
    fields of the result are those of the object, and a field that the
    object lacks gets its default: the content as it was given, no
    improvements, an empty reasoning.  The improvements are a value that
    the logging loop could walk through. *)
Theorem improve_content_success_reads_object :
  forall (self : ContentImprover) (w : World) (topic content : string)
         (check_result : PyVal),
    let result := improve_content self w topic content check_result in
    field result "success" = Some (PBool true) ->
    exists (prompt : Prompt) (result_text : string) (decoded : gmap string PyVal),
      _make_glm_request self w prompt (Some improvement_system_prompt) true 3000
      = ret result_text /\
      json_loads (clean_json_response result_text) = ret (PDict decoded) /\
      field result "improved_content"
      = Some (default (PStr content) (decoded !! "improved_content")) /\
      field result "improvements" = Some (default (PList []) (decoded !! "improvements")) /\
      field result "reasoning" = Some (default (PStr "") (decoded !! "reasoning")) /\
      loggable (default (PList []) (decoded !! "improvements")).
Proof.
  intros self w topic content check_result result Hsuccess. subst result.
  destruct (improve_content_outcome self w topic content check_result)
    as [[reasoning Hfail] | (prompt & result_text & v & Hrequest & Hread & Hv)].
  { rewrite Hfail in Hsuccess. discriminate. }
  rewrite Hv. clear Hv Hsuccess.
  exists prompt, result_text.
  unfold read_improvement in Hread.
  destruct (json_loads (clean_json_response result_text)) as [e | decoded]; [discriminate |].
  cbn [bind] in Hread.
  destruct decoded as [| | | | | | d |]; try discriminate.
  exists d. cbn [py_get bind ret] in Hread.
  bind_inv Hread. bind_inv Hread. bind_inv Hread. injection Hread as <-.
  repeat (split; [first [assumption | reflexivity] |]).
  generalize dependent (default (PList []) (d !! "improvements")).
  intros improvements Hlen Hiter.
  destruct improvements as [| | | | s | items | d' |]; try discriminate.
  - (* a str: the loop visits its characters *)
    destruct s as [| ch s]; [reflexivity |].
    cbn in Hiter. injection Hiter as <-. discriminate.
  - cbn in Hiter. injection Hiter as <-. eapply mapM_get_dicts. eassumption.
  - (* a dict: the loop visits its keys *)
    cbn in Hiter. injection Hiter as <-. cbn [loggable].
    destruct (map_to_list d') as [| [k x] rest] eqn:Hlist.
    + apply map_to_list_empty_iff in Hlist. exact Hlist.
    + discriminate.
Qed.

(** ** The search *)

Lemma tavily_entry_is_entry result entry :
  tavily_entry result = ret entry -> is_entry entry.
Proof.
  unfold tavily_entry. intros H.
  bind_inv H. bind_inv H. bind_inv H. bind_inv H. bind_inv H. injection H as <-.
  exists a, a1, a2, a3. split; [reflexivity |].
  destruct a0; try discriminate; cbn in Ha1; injection Ha1 as <-; reflexivity.
Qed.

Lemma search_with_tavily_entries w key topic max_results :
  Forall is_entry (_search_with_tavily w key topic max_results).
Proof.
  unfold _search_with_tavily.
  match goal with
  | |- Forall _ (try_except ?body _) => destruct body as [e | results] eqn:Hbody
  end; [constructor |].
  cbn [try_except].
  bind_inv Hbody. bind_inv Hbody. bind_inv Hbody. bind_inv Hbody. bind_inv Hbody.
  bind_inv Hbody. injection Hbody as <-.
  eapply mapM_Forall; [| eassumption].
  exact tavily_entry_is_entry.
Qed.

Lemma news_line_of_entry r : is_entry r -> exists line, news_line r = ret line.
Proof.
  intros (title & summary & link & published & -> & Hslice).
  unfold news_line.
  change (py_getitem (dict _) "title") with (ret title).
  change (py_getitem (dict _) "summary") with (ret summary).
  cbn [bind ret].
  destruct summary; try discriminate; cbn [py_slice_to bind ret]; eauto.
Qed.

Lemma mapM_total {A B} (f : A -> M B) (P : A -> Prop) (l : list A) :
  (forall x, P x -> exists y, f x = ret y) -> Forall P l -> exists ys, mapM f l = ret ys.
Proof.
  intros Hf. induction 1 as [| x l Hx _ [ys IH]]; [exists []; reflexivity |].
  destruct (Hf x Hx) as [y Hy]. exists (y :: ys).
  cbn [mapM]. rewrite Hy, IH. reflexivity.
Qed.

(** X14.  [search_topic] never raises, and every item of the list it returns is
    a dict with the keys [title], [summary], [link], [published] and
    [source], whose summary can be sliced and whose source is the fixed
    text; so the lines that [main.py] builds from the list are always
    built.  Without a Tavily key in the environment the list is empty,
    whatever the network would answer. *)
Theorem search_topic_gives_entries :
  forall (cfg : Config) (w : World) (api_key : PyVal) (topic : string) (max_results : Z),
    exists results : list PyVal,
      ws_search_topic (WebSearcher cfg w api_key) topic max_results = ret results /\
      Forall is_entry results /\
      (exists text, news_summary_text results = ret text) /\
      (truthy (of_getenv (TAVILY_API_KEY cfg)) = false -> results = []).
Proof.
  intros cfg w api_key topic max_results.
  cbn [ws_search_topic WebSearcher].
  destruct (truthy (of_getenv (TAVILY_API_KEY cfg))) eqn:Hkey.
  - cbn [truthy].
    eexists. split; [reflexivity |].
    pose proof (search_with_tavily_entries w (of_getenv (TAVILY_API_KEY cfg))
                  topic max_results) as Hentries.
    split; [exact Hentries |]. split; [| discriminate].
    unfold news_summary_text.
    destruct (mapM_total news_line is_entry _ news_line_of_entry Hentries) as [lines ->].
    cbn [bind ret]. rewrite py_join_strings. eauto.
  - cbn [truthy].
    exists []. split; [reflexivity |]. split; [constructor |].
    split; [| reflexivity]. exists "". reflexivity.
Qed.

Lemma mapM_raises {A B} (f : A -> M B) (l : list A) :
  Exists (fun x => raises (f x)) l -> raises (mapM f l).
Proof.
  induction 1 as [x l [e He] | x l _ [e IH]].
  - exists e. cbn [mapM]. rewrite He. reflexivity.
  - cbn [mapM]. destruct (f x) as [e' | y]; [exists e'; reflexivity |].
    exists e. cbn [bind]. rewrite IH. reflexivity.
Qed.

Lemma try_except_raises {A} (body : M (list A)) :
  raises body -> try_except body (fun _ => []) = [].
Proof. intros [e ->]. reflexivity. Qed.

(** X15.  [_search_with_tavily] returns the empty list, and so drops every
    result of the response, when the request raises, when the response is
    not an object, when one of its results is not an object, and when its
    [answer], which is only logged, is a true value that cannot be
    sliced. *)
Theorem search_with_tavily_drops_all :
  forall (w : World) (key : PyVal) (topic : string) (max_results : Z),
    let request := {| tq_api_key := key; tq_query := topic;
                      tq_search_depth := "advanced"; tq_max_results := max_results |} in
    let found := _search_with_tavily w key topic max_results in
    (raises (tavily_search w request) -> found = []) /\
    (forall response,
        tavily_search w request = ret response -> is_dict response = false -> found = []) /\
    (forall body items,
        tavily_search w request = ret (PDict body) ->
        body !! "results" = Some (PList items) ->
        Exists (fun item => is_dict item = false) items -> found = []) /\
    (forall body answer,
        tavily_search w request = ret (PDict body) ->
        body !! "answer" = Some answer ->
        truthy answer = true -> sliceable answer = false -> found = []).
Proof.
  intros w key topic max_results request found. subst request found.
  unfold _search_with_tavily.
  split; [| split; [| split]].
  - intros [e He]. rewrite He. reflexivity.
  - intros response Hresponse Hdict. rewrite Hresponse. cbn [bind].
    destruct response; try discriminate; reflexivity.
  - intros body items Hresponse Hresults Hbad. rewrite Hresponse.
    cbn [bind py_get ret]. rewrite Hresults. cbn [from_option id bind ret py_iter].
    destruct (mapM_raises tavily_entry items) as [e He].
    { eapply Exists_impl; [exact Hbad |].
      intros item Hitem. destruct item; try discriminate; eexists; reflexivity. }
    rewrite He. reflexivity.
  - intros body answer Hresponse Hanswer Htrue Hslice. rewrite Hresponse.
    cbn [bind py_get ret]. apply try_except_raises.
    destruct (py_iter (default (PList []) (body !! "results"))) as [e | items];
      [exists e; reflexivity |].
    cbn [bind].
    destruct (mapM tavily_entry items) as [e | results]; [exists e; reflexivity |].
    cbn [bind]. rewrite Hanswer. cbn [from_option id]. rewrite Htrue.
    destruct answer; try discriminate; eexists; reflexivity.
Qed.

(** ** The rounds of the search and the answer of the language model *)

Lemma collect_rounds_raises {R} (call : nat -> M R) (usable : R -> bool) (e : exn) :
  (call 0%nat = raise e \/ (exists r, call 0%nat = ret r) /\ call 1%nat = raise e) ->
  collect_rounds call usable (seq 0 2) = raise e.
Proof.
  intros [H0 | [[r H0] H1]]; cbn [seq collect_rounds]; rewrite H0; [reflexivity |].
  cbn [bind ret]. rewrite H1. reflexivity.
Qed.

(** X16.  When one of the two search rounds raises, [verify_claim] and
    [check_freshness] return their error verdict, with the confidence and
    the score 0: the result of the other round is dropped and neither the
    language model nor the blend of time and content is used. *)
Theorem failing_round_discards_the_other :
  forall (self : FactChecker) (w : World) (claim content topic : string)
         (timestamp : option datetime) (key : PyVal) (e : exn),
    getattr (fc_web_searcher self) "api_key" = ret key ->
    truthy key = true ->
    ((ws_verify_fact (fc_web_searcher self) 0 claim = raise e \/
      (exists r, ws_verify_fact (fc_web_searcher self) 0 claim = ret r) /\
      ws_verify_fact (fc_web_searcher self) 1 claim = raise e) ->
     verify_claim self w claim = claim_error_verdict e /\
     field (verify_claim self w claim) "confidence" = Some (PInt 0)) /\
    ((ws_check_freshness_with_search (fc_web_searcher self) 0 topic content = raise e \/
      (exists r, ws_check_freshness_with_search (fc_web_searcher self) 0 topic content = ret r) /\
      ws_check_freshness_with_search (fc_web_searcher self) 1 topic content = raise e) ->
     check_freshness self w content topic timestamp = freshness_error_verdict e /\
     field (check_freshness self w content topic timestamp) "score" = Some (PInt 0)).
Proof.
  intros self w claim content topic timestamp key e Hattr Hkey. split.
  - intros Hround.
    assert (verify_claim self w claim = claim_error_verdict e) as ->; [| split; reflexivity].
    unfold verify_claim, verify_claim_body. rewrite Hattr. cbn [bind ret]. rewrite Hkey.
    rewrite (collect_rounds_raises _ claim_usable e Hround). reflexivity.
  - intros Hround.
    assert (check_freshness self w content topic timestamp = freshness_error_verdict e)
      as ->; [| split; reflexivity].
    unfold check_freshness, check_freshness_body. rewrite Hattr. cbn [bind ret]. rewrite Hkey.
    rewrite (collect_rounds_raises _ freshness_usable e Hround). reflexivity.
Qed.

Lemma verify_claim_of_answer self w claim key answer :
  getattr (fc_web_searcher self) "api_key" = ret key ->
  truthy key = false ->
  truthy (fc_client self) = true ->
  chat_completion w
    {| cr_model := DEEPSEEK_MODEL;
       cr_system := "你是一个严格的事实核查员，对信息真实性要求极高";
       cr_user := VerificationPrompt claim;
       cr_temperature := 0.1; cr_max_tokens := 800 |} = ret answer ->
  verify_claim self w claim = _parse_verification_result (str_strip answer).
Proof.
  intros Hattr Hkey Hclient Hanswer.
  unfold verify_claim, verify_claim_body.
  rewrite Hattr. cbn [bind ret]. rewrite Hkey. cbn [bind ret].
  rewrite Hclient. cbn [negb]. rewrite Hanswer. reflexivity.
Qed.

(** X17.  [comprehensive_check] is not protected by a [try]: when the language
    model answers the verification with JSON that is not an object, such
    as a list or a number, [verify_claim] returns the decoded value as it
    is and [comprehensive_check] raises an [AttributeError] on its
    [get]. *)
Theorem comprehensive_check_raises_on_other_json :
  forall (self : FactChecker) (w : World) (topic content : string)
         (timestamp : option datetime) (key : PyVal) (answer : string) (decoded : PyVal),
    getattr (fc_web_searcher self) "api_key" = ret key ->
    truthy key = false ->
    truthy (fc_client self) = true ->
    chat_completion w
      {| cr_model := DEEPSEEK_MODEL;
         cr_system := "你是一个严格的事实核查员，对信息真实性要求极高";
         cr_user := VerificationPrompt content;
         cr_temperature := 0.1; cr_max_tokens := 800 |} = ret answer ->
    json_loads (str_strip answer) = ret decoded ->
    is_dict decoded = false ->
    verify_claim self w content = decoded /\
    comprehensive_check self w topic content timestamp
    = raise (Exn AttributeError
               ("'" +:+ type_name decoded +:+ "' object has no attribute 'get'")).
Proof.
  intros self w topic content timestamp key answer decoded
    Hattr Hkey Hclient Hanswer Hdecoded Hdict.
  assert (verify_claim self w content = decoded) as Hverdict.
  { rewrite (verify_claim_of_answer self w content key answer) by assumption.
    unfold _parse_verification_result. rewrite Hdecoded. reflexivity. }
  split; [exact Hverdict |].
  unfold comprehensive_check. rewrite Hverdict. unfold quality_report.
  destruct decoded; try discriminate; reflexivity.
Qed.

(** X18.  A report without [score_breakdown]: [analyze_improvement_needs] raises
    the [KeyError] to its caller, while [improve_content] turns it into a
    failure that carries the content, and does so before any request, the
    same in every world. *)
Theorem report_without_breakdown :
  forall (self : ContentImprover) (w : World) (topic content : string)
         (report : gmap string PyVal),
    report !! "score_breakdown" = None ->
    truthy (ci_api_key self) = true ->
    analyze_improvement_needs (PDict report) = raise (Exn KeyError "'score_breakdown'") /\
    improve_content self w topic content (PDict report)
    = improvement_failure content "改进失败: 'score_breakdown'".
Proof.
  intros self w topic content report Hnone Hkey. split.
  - unfold analyze_improvement_needs. cbn [py_getitem]. rewrite Hnone. reflexivity.
  - unfold improve_content. rewrite Hkey. cbn [negb].
    unfold improve_content_body. cbn [py_getitem]. rewrite Hnone. reflexivity.
Qed.

(** X19.  The report of the checker that the repository builds is the same for
    every topic, content, time stamp and world, and so are the needs that
    [analyze_improvement_needs] reads from it: the three severe needs, then
    the five suggestions of the report. *)
Theorem repository_needs_are_constant :
  forall (cfg : Config) (w : World) (api_key base_url doubao_api_key : PyVal)
         (topic content : string) (timestamp : option datetime),
    exists report,
      comprehensive_check (FactChecker_init cfg w api_key base_url doubao_api_key) w
        topic content timestamp = ret report /\
      analyze_improvement_needs report
      = ret (PStr <$> [truth_need_severe; freshness_need_severe; consistency_need_severe;
                       truth_moderate; freshness_moderate; consistency_moderate;
                       truth_severe; freshness_severe]).
Proof.
  intros cfg w a b d topic content timestamp.
  unfold comprehensive_check.
  rewrite verify_claim_repository, check_freshness_repository, cross_reference_repository.
  match goal with
  | |- exists report, ?run = ret report /\ _ => exists (try_except run (fun _ => PNone))
  end.
  split; vm_compute; reflexivity.
Qed.

Lemma summary_line_of_entry r : is_entry r -> exists line, summary_line r = ret line.
Proof.
  intros (title & summary & link & published & -> & Hslice).
  unfold summary_line.
  change (py_get (dict _) "title" (PStr "")) with (ret title).
  change (py_get (dict _) "summary" (PStr "")) with (ret summary).
  cbn [bind ret].
  destruct summary; try discriminate; cbn [py_slice_to bind ret]; eauto.
Qed.

(** X20.  [cross_reference] with search results, the searcher having a key and
    the entries being those of [search_topic].  Without a client the
    verdict is the one without a key, but with the confidence 50 instead
    of 0.  With a client, an answer that is read as an object is returned
    with all the results, not only the three of the prompt, under
    [search_results] and [web_search] under [method], its other keys
    untouched; an answer decoded to another value gives the error verdict,
    with the confidence 0. *)
Theorem cross_reference_with_search :
  forall (self : FactChecker) (w : World) (topic content : string)
         (key : PyVal) (results : list PyVal),
    getattr (fc_web_searcher self) "api_key" = ret key ->
    truthy key = true ->
    ws_search_topic (fc_web_searcher self) topic 5 = ret results ->
    results <> [] ->
    Forall is_entry results ->
    (truthy (fc_client self) = false ->
     cross_reference self w topic content = cross_ref_no_key 50) /\
    (truthy (fc_client self) = true ->
     forall answer : string,
       (forall request, chat_completion w request = ret answer) ->
       match _parse_cross_ref_result (str_strip answer) with
       | PDict d =>
           cross_reference self w topic content
           = PDict (<["method" := PStr "web_search"]> (<["search_results" := PList results]> d))
           /\ field (cross_reference self w topic content) "search_results"
              = Some (PList results)
           /\ forall k, k <> "method" -> k <> "search_results" ->
                        field (cross_reference self w topic content) k = d !! k
       | _ =>
           field (cross_reference self w topic content) "confidence" = Some (PInt 0) /\
           field (cross_reference self w topic content) "method" = Some (PStr "none")
       end).
Proof.
  intros self w topic content key results Hattr Hkey Hsearch Hnonempty Hentries.
  destruct (mapM_total summary_line is_entry (take 3 results) summary_line_of_entry
              (Forall_take _ 3 _ Hentries)) as [lines Hlines].
  unfold cross_reference, cross_reference_body.
  rewrite Hattr. cbn [bind ret]. rewrite Hkey, Hsearch. cbn [bind ret].
  destruct results as [| r results]; [congruence |].
  rewrite Hlines. cbn [bind ret].
  split.
  - intros ->. reflexivity.
  - intros -> answer Hanswer. cbn [negb]. rewrite Hanswer. cbn [bind ret].
    destruct (_parse_cross_ref_result (str_strip answer)) as [| | | | | | d |];
      try (split; reflexivity).
    cbn [py_setitem bind ret try_except].
    split; [reflexivity |]. split.
    + cbn [field]. rewrite lookup_insert_ne by discriminate.
      apply lookup_insert_eq.
    + intros k Hmethod Hresults. cbn [field].
      rewrite !lookup_insert_ne by congruence. reflexivity.
Qed.

(** ** The relevance of a content to a topic *)

Lemma filter_length_le {A} (P : A -> Prop) `{forall x, Decision (P x)} (l : list A) :
  (length (filter P l) <= length l)%nat.
Proof.
  induction l as [| x l IH]; [reflexivity |].
  rewrite filter_cons. destruct (decide (P x)); cbn [length]; lia.
Qed.

(** X21.  [_check_topic_relevance] gives one of the scores 90, 70 and 30, says
    relevant exactly at 70 and above, and counts the words of the topic
    that occur in the content: the score 90 needs a topic of at least
    three words, and a topic without a word is never relevant. *)
Theorem topic_relevance_by_word_count :
  forall (str_split : string -> list string) (content topic : string),
    let verdict := _check_topic_relevance str_split content topic in
    let words := str_split (str_lower topic) in
    exists score : Z,
      field verdict "relevance_score" = Some (PInt score) /\
      field verdict "is_relevant" = Some (PBool (70 <=? score)) /\
      In score [90; 70; 30] /\
      (score = 90 -> (3 <= length words)%nat) /\
      (70 <= score -> exists word, In word words /\ str_in word (str_lower content) = true) /\
      (words = [] -> score = 30).
Proof.
  intros str_split content topic verdict words. subst verdict.
  unfold _check_topic_relevance.
  pose proof (filter_length_le
                (fun keyword => Is_true (str_in keyword (str_lower content))) words) as Hle.
  assert (forall n, (1 <= n)%nat -> n = relevance_count str_split content topic ->
                    exists word, In word words /\ str_in word (str_lower content) = true)
    as Hword.
  { intros n Hn ->. unfold relevance_count in Hn. fold words in Hn.
    destruct (filter _ words) as [| word rest] eqn:Hfilter; [cbn in Hn; lia |].
    assert (word ∈ filter (fun keyword => Is_true (str_in keyword (str_lower content))) words)
      as Hin by (rewrite Hfilter; left).
    apply list_elem_of_filter in Hin as [Hocc Hin].
    exists word. split; [apply list_elem_of_In; exact Hin | apply Is_true_eq_true; exact Hocc]. }
  change (length (filter _ words)) with (relevance_count str_split content topic) in Hle.
  destruct (3 <=? relevance_count str_split content topic)%nat eqn:H3.
  - apply Nat.leb_le in H3. exists 90.
    repeat split; try reflexivity.
    + simpl. auto.
    + intros _. lia.
    + intros _. apply (Hword (relevance_count str_split content topic)); [lia | reflexivity].
    + intros Hnil. rewrite Hnil in Hle. cbn in Hle. lia.
  - apply Nat.leb_gt in H3.
    destruct (1 <=? relevance_count str_split content topic)%nat eqn:H1.
    + apply Nat.leb_le in H1. exists 70.
      repeat split; try reflexivity.
      * simpl. auto.
      * intros Habs. discriminate Habs.
      * intros _. apply (Hword (relevance_count str_split content topic)); [lia | reflexivity].
      * intros Hnil. rewrite Hnil in Hle. cbn in Hle. lia.
    + exists 30.
      repeat split; try reflexivity.
      * simpl. auto.
      * intros Habs. discriminate Habs.
      * intros Habs. lia.
Qed.

(** ** When the report is returned *)

(** X22.  [comprehensive_check] has no [try] of its own.  It returns a report
    exactly when each of the three verdicts is a dict whose score (0 when
    the key is missing) is a number that converts to a float; otherwise it
    raises. *)
Theorem quality_report_returns_iff :
  forall (truth_check freshness_check consistency_check : PyVal),
    (exists report, quality_report truth_check freshness_check consistency_check = ret report)
    <->
    (exists (t f c : Num) (x y z : float),
        score_of truth_check "confidence" = Some t /\
        score_of freshness_check "score" = Some f /\
        score_of consistency_check "confidence" = Some c /\
        to_float t = ret x /\ to_float f = ret y /\ to_float c = ret z).
Proof.
  intros tc fc cc. split.
  - intros [report H].
    destruct (quality_report_scores _ _ _ _ H)
      as (t & f & c & x & y & z & Ht & Hf & Hc & Hx & Hy & Hz & _).
    exists t, f, c, x, y, z. repeat split; assumption.
  - intros (t & f & c & x & y & z & Ht & Hf & Hc & Hx & Hy & Hz).
    destruct tc as [| | | | | | dt |]; try discriminate.
    destruct fc as [| | | | | | df |]; try discriminate.
    destruct cc as [| | | | | | dc |]; try discriminate.
    cbn [score_of] in Ht, Hf, Hc.
    unfold quality_report. cbn [py_get bind ret].
    unfold py_mul_float, py_lt_int. rewrite Ht, Hf, Hc. cbn [bind ret].
    rewrite Hx, Hy, Hz. cbn [bind ret]. eauto.
Qed.

End Further.

(** * Closed instances of the further properties *)

Lemma pass_iff_top_levels_witness :
  exists (is_pass : bool) (level : string),
    field sample_report "is_pass" = Some (PBool is_pass) /\
    field sample_report "quality_level" = Some (PStr level) /\
    (is_pass = true <-> In level passing_levels).
Proof.
  apply (pass_iff_top_levels truth_40 freshness_80 consistency_90 sample_report).
  vm_compute. reflexivity.
Defined.

Lemma quality_level_monotone_witness :
  (65 <=? 85)%float = true /\
  (level_rank (quality_band 65).2 <= level_rank (quality_band 85).2)%nat.
Proof.
  split; [reflexivity |].
  apply (quality_level_monotone 65 85). reflexivity.
Defined.

Lemma warning_implies_suggestion_witness :
  exists suggestions : list string,
    field sample_report "improvement_suggestions" = Some (PList (PStr <$> suggestions)) /\
    (In truth_severe suggestions -> In truth_moderate suggestions) /\
    (In freshness_severe suggestions -> In freshness_moderate suggestions).
Proof.
  apply (warning_implies_suggestion truth_40 freshness_80 consistency_90 sample_report).
  vm_compute. reflexivity.
Defined.

Lemma time_score_antitone_witness :
  (2 <=? 30)%float = true /\ (time_band 30).2 <= (time_band 2).2.
Proof.
  split; [reflexivity |].
  apply (time_score_antitone 2 30). reflexivity.
Defined.

Lemma keywords_make_fresh_witness :
  (1 <= @fresh_count plain "BETA release of v2.0")%nat /\
  field (@check_freshness plain keyed_checker (offline (800 * hour))
           "BETA release of v2.0" "topic" (Some 0)) "is_fresh" = Some (PBool true).
Proof.
  assert (1 <= @fresh_count plain "BETA release of v2.0")%nat as H.
  { vm_compute. repeat constructor. }
  split; [exact H |].
  destruct (@keywords_make_fresh plain keyed_checker (offline (800 * hour)) (Some 0)
              "BETA release of v2.0" "topic" PNone) as (_ & _ & Hthree & _).
  - vm_compute. reflexivity.
  - left. reflexivity.
  - exact H.
  - apply Hthree. vm_compute. apply le_n.
Defined.

Lemma stale_only_old_and_plain_witness :
  exists level : string,
    field (@check_freshness plain keyed_checker (offline 0) "hello" "t" None)
      "freshness_level" = Some (PStr level) /\
    (level = "过时" ->
     @fresh_count plain "hello" = 0%nat /\
     time_score (@time_part plain (offline 0) None) = 10) /\
    (@None datetime = None -> level = "较新" \/ level = "一般").
Proof.
  apply (@stale_only_old_and_plain plain keyed_checker (offline 0) None "hello" "t" PNone).
  - vm_compute. reflexivity.
  - left. reflexivity.
Defined.

Lemma integer_scores_bound_the_report_witness :
  exists (report : PyVal) (x : float) (is_pass : bool),
    quality_report truth_40 freshness_80 consistency_90 = ret report /\
    field report "overall_score" = Some (PFloat x) /\
    field report "is_pass" = Some (PBool is_pass) /\
    (0 <=? x)%float = true /\ (x <=? 100)%float = true /\
    (is_pass = true -> 34 <= 80 /\ 15 <= 40) /\
    (40 = 100 -> 80 = 100 -> 90 = 0 -> is_pass = true).
Proof.
  apply (integer_scores_bound_the_report truth_40 freshness_80 consistency_90 40 80 90);
    first [reflexivity | lia].
Defined.

Lemma glm_request_returns_text_witness :
  @_make_glm_request plain keyed_improver (replying sample_items) sample_prompt None true 3000
  = ret ("first" +:+ newline +:+ "second") /\
  "first" +:+ newline +:+ "second" <> "".
Proof.
  assert (@_make_glm_request plain keyed_improver (replying sample_items) sample_prompt
            None true 3000 = ret ("first" +:+ newline +:+ "second")) as H.
  { vm_compute. reflexivity. }
  split; [exact H |].
  exact (@glm_request_returns_text plain keyed_improver (replying sample_items) sample_prompt
           None true 3000 _ H).
Defined.

Lemma glm_request_success_conditions_witness :
  truthy (ci_api_key keyed_improver) = true /\
  exists request response body output,
    requests_post (replying sample_items) request = ret response /\
    gq_prompt request = sample_prompt /\
    status_code response = 200 /\
    json response = ret (PDict body) /\
    body !! "error" = None /\
    body !! "output" = Some output.
Proof.
  apply (@glm_request_success_conditions plain keyed_improver (replying sample_items)
           sample_prompt None true 3000 ("first" +:+ newline +:+ "second")).
  vm_compute. reflexivity.
Defined.

Lemma glm_request_joins_assistant_texts_witness :
  @_make_glm_request plain keyed_improver (replying sample_items) sample_prompt None true 3000
  = ret ("first" +:+ newline +:+ "second").
Proof.
  apply (@glm_request_joins_assistant_texts plain keyed_improver (replying sample_items)
           sample_prompt None true 3000 sample_items).
  - reflexivity.
  - intros request. reflexivity.
Defined.

Lemma needs_of_a_report_witness :
  exists (t f c : Num),
    score_of truth_40 "confidence" = Some t /\
    score_of freshness_80 "score" = Some f /\
    score_of consistency_90 "confidence" = Some c /\
    field sample_report "improvement_suggestions"
    = Some (PList (PStr <$> suggestions_for t f c)) /\
    analyze_improvement_needs sample_report
    = ret (PStr <$> (own_needs t f c ++ suggestions_for t f c))%list /\
    (own_needs t f c = [] <-> suggestions_for t f c = []) /\
    (own_needs t f c = []
     <-> num_ltb t 70 = false /\ num_ltb f 70 = false /\ num_ltb c 70 = false).
Proof.
  apply (needs_of_a_report truth_40 freshness_80 consistency_90 sample_report).
  vm_compute. reflexivity.
Defined.

Lemma improve_content_on_a_report_witness :
  exists (t f c : Num) (overall : float),
    score_of truth_40 "confidence" = Some t /\
    score_of freshness_80 "score" = Some f /\
    score_of consistency_90 "confidence" = Some c /\
    field sample_report "overall_score" = Some (PFloat overall) /\
    let prompt :=
      ImprovementPrompt "topic" "the draft" (@format_1f plain overall)
        (@format_1f plain (num_float t)) (@format_1f plain (num_float f))
        (@format_1f plain (num_float c))
        (@low_notes plain t f c ++ (@py_str plain <$> (PStr <$> suggestions_for t f c)))%list in
    @improvement_prompt plain "topic" "the draft" sample_report = ret prompt /\
    @improve_content plain keyed_improver (replying sample_items) "topic" "the draft"
      sample_report
    = @improvement_of plain "the draft"
        (@_make_glm_request plain keyed_improver (replying sample_items) prompt
           (Some improvement_system_prompt) true 3000).
Proof.
  apply (@improve_content_on_a_report plain keyed_improver (replying sample_items)
           "topic" "the draft" truth_40 freshness_80 consistency_90 sample_report).
  - vm_compute. reflexivity.
  - reflexivity.
Defined.

Lemma improve_content_success_reads_object_witness :
  field (@improve_content improving_runtime keyed_improver
           (replying [Message "assistant" [improved_answer]]) "topic" "the draft"
           sample_report) "success" = Some (PBool true) /\
  exists (prompt : Prompt) (result_text : string) (decoded : gmap string PyVal),
    @_make_glm_request improving_runtime keyed_improver
      (replying [Message "assistant" [improved_answer]]) prompt
      (Some improvement_system_prompt) true 3000 = ret result_text /\
    @json_loads improving_runtime (@clean_json_response improving_runtime result_text)
    = ret (PDict decoded) /\
    field (@improve_content improving_runtime keyed_improver
             (replying [Message "assistant" [improved_answer]]) "topic" "the draft"
             sample_report) "improved_content"
    = Some (default (PStr "the draft") (decoded !! "improved_content")) /\
    field (@improve_content improving_runtime keyed_improver
             (replying [Message "assistant" [improved_answer]]) "topic" "the draft"
             sample_report) "improvements"
    = Some (default (PList []) (decoded !! "improvements")) /\
    field (@improve_content improving_runtime keyed_improver
             (replying [Message "assistant" [improved_answer]]) "topic" "the draft"
             sample_report) "reasoning"
    = Some (default (PStr "") (decoded !! "reasoning")) /\
    loggable (default (PList []) (decoded !! "improvements")).
Proof.
  assert (field (@improve_content improving_runtime keyed_improver
                   (replying [Message "assistant" [improved_answer]]) "topic" "the draft"
                   sample_report) "success" = Some (PBool true)) as H.
  { vm_compute. reflexivity. }
  split; [exact H |].
  exact (@improve_content_success_reads_object improving_runtime keyed_improver
           (replying [Message "assistant" [improved_answer]]) "topic" "the draft"
           sample_report H).
Defined.

Lemma failing_round_discards_the_other_witness :
  @verify_claim plain one_round_checker (offline 0) "claim"
  = claim_error_verdict (Exn OtherException "Connection error.") /\
  field (@verify_claim plain one_round_checker (offline 0) "claim") "confidence"
  = Some (PInt 0).
Proof.
  destruct (@failing_round_discards_the_other plain one_round_checker (offline 0)
              "claim" "content" "topic" None (PStr "key")
              (Exn OtherException "Connection error.")) as [Hclaim _].
  - vm_compute. reflexivity.
  - reflexivity.
  - apply Hclaim. right. split; [eexists; reflexivity | reflexivity].
Defined.

Lemma comprehensive_check_raises_on_other_json_witness :
  @verify_claim array_runtime scenario_checker answering_list "content" = PList [] /\
  @comprehensive_check array_runtime scenario_checker answering_list "topic" "content" None
  = raise (Exn AttributeError "'list' object has no attribute 'get'").
Proof.
  apply (@comprehensive_check_raises_on_other_json array_runtime scenario_checker
           answering_list "topic" "content" None PNone "[]" (PList [])).
  - vm_compute. reflexivity.
  - reflexivity.
  - reflexivity.
  - reflexivity.
  - reflexivity.
  - reflexivity.
Defined.

Lemma report_without_breakdown_witness :
  analyze_improvement_needs (PDict ∅) = raise (Exn KeyError "'score_breakdown'") /\
  @improve_content plain keyed_improver (offline 0) "topic" "the draft" (PDict ∅)
  = improvement_failure "the draft" "改进失败: 'score_breakdown'".
Proof.
  apply (@report_without_breakdown plain keyed_improver (offline 0) "topic" "the draft" ∅).
  - reflexivity.
  - reflexivity.
Defined.

Lemma cross_reference_with_search_witness :
  @cross_reference plain searching_checker searching "topic" "content" = cross_ref_no_key 50.
Proof.
  destruct (@cross_reference_with_search plain searching_checker searching "topic" "content"
              (PStr "key") [found_entry]) as [Hnone _].
  - vm_compute. reflexivity.
  - reflexivity.
  - vm_compute. reflexivity.
  - discriminate.
  - constructor; [| constructor].
    exists (PStr "T"), (PStr "S"), (PStr ""), (PStr ""). split; reflexivity.
  - apply Hnone. reflexivity.
Defined.
